(** * Twenzetu Safari web client: regions page, API adapter, contributors page

    A shallow embedding of the client-side scripts
      - regions.js  (badge helpers, [getAttractionsByRegion],
                     [buildAttractionCard], [buildRegionSection], [init]),
      - api.js      ([apiFetch] and the [api] endpoint table),
      - about.js    ([loadContributors]),
      - download-images.sh (the script that fetches the photographs),
    together with the properties their specification states and further
    properties of the code.

    Conventions.
      - JavaScript strings are byte strings (UTF-8 of the source text).
      - An HTML template literal is written as the concatenation of its
        literal chunks and its interpolated expressions.  The text of a
        literal chunk is written with the apostrophe standing for the
        double-quote character; [html] puts the double quotes back.  No
        template of the sources contains an apostrophe in its literal text.
      - Effects (network requests, console output, DOM writes, timers,
        notifications of the icon and animation libraries) are recorded as a
        trace of events; a computation is a completion (normal or thrown)
        together with the events it emitted. *)

From Stdlib Require Import ZArith List Ascii DecimalString SpecFloat.
From stdpp Require Import base list strings gmap.

Local Open Scope Z_scope.

(** ** Strings *)

Module Str.

Definition dquote : ascii := "034"%char.
Definition apostrophe : ascii := "039"%char.

(** Restores the double quotes of a template chunk. *)
Fixpoint html (s : string) : string :=
  match s with
  | EmptyString => EmptyString
  | String c s' =>
      String (if Ascii.eqb c apostrophe then dquote else c) (html s')
  end.

(** [Array.prototype.join('')] on an array of strings. *)
Fixpoint join (l : list string) : string :=
  match l with
  | [] => EmptyString
  | s :: l' => s +:+ join l'
  end.

(** The decimal expansion of an integer.  It is the text of an HTTP status
    in a template literal, and the digits that [toFixed] prints for its
    scaled integer.  (The text of an arbitrary integer Number is
    [Integer.toString], below.) *)
Definition of_Z (z : Z) : string := NilZero.string_of_int (Z.to_int z).

(** The first [n] characters of a string, and what follows them. *)
Fixpoint take (n : nat) (s : string) : string :=
  match n, s with
  | S n', String c s' => String c (take n' s')
  | _, _ => EmptyString
  end.

Fixpoint drop (n : nat) (s : string) : string :=
  match n, s with
  | S n', String c s' => drop n' s'
  | _, _ => s
  end.

(** [s] occurs in [t] as a contiguous piece. *)
Definition occurs_in (s t : string) : Prop :=
  ∃ pre post, t = pre +:+ s +:+ post.

Definition starts_with (p t : string) : Prop := ∃ rest, t = p +:+ rest.

(** Search for [s] in [t], position by position. *)
Fixpoint containsb (s t : string) : bool :=
  String.eqb (take (String.length s) t) s
  || match t with
     | EmptyString => false
     | String _ t' => containsb s t'
     end.

End Str.

Abbreviation html := Str.html.

(** ** JavaScript numbers: [parseFloat] and [Number.prototype.toFixed]

    A Number is an IEEE 754 binary64 value, given by the Standard Library's
    [spec_float] at precision 53 and maximal exponent 1024.  All arithmetic
    below is exact, on integers. *)

Module Num.

Definition prec : Z := 53.
Definition emax : Z := 1024.

(** The Number nearest to the rational [p/q] (ties to even), with sign
    [neg]; beyond the largest finite value this is an infinity.  The
    quotient is cut to 55 or 56 bits with the position of the remainder
    relative to one half, which is all that rounding to 53 bits needs. *)
Definition of_ratio (neg : bool) (p q : positive) : spec_float :=
  let ex := Z.pos (digits2_pos p) - Z.pos (digits2_pos q) - 55 in
  let num := if 0 <=? ex then Z.pos p else Z.pos p * 2 ^ (- ex) in
  let den := if 0 <=? ex then Z.pos q * 2 ^ ex else Z.pos q in
  let mx := num / den in
  let r := num mod den in
  let lx := if r =? 0 then loc_Exact else loc_Inexact (2 * r ?= den) in
  binary_round_aux prec emax neg mx ex lx.

(** The Number for the decimal [coef * 10^exp10] with sign [neg].  (For a
    literal of more than 20 significant digits ECMAScript also admits the
    value cut after the 20th digit, rounded either way; engines round the
    exact value, as is done here.) *)
Definition of_decimal (neg : bool) (coef : N) (exp10 : Z) : spec_float :=
  match coef with
  | N0 => S754_zero neg
  | Npos c =>
      if 0 <=? exp10
      then of_ratio neg (c * Z.to_pos (10 ^ exp10)) 1
      else of_ratio neg c (Z.to_pos (10 ^ (- exp10)))
  end.

(** *** Lexing the argument of [parseFloat] *)

Definition code (c : ascii) : N := N_of_ascii c.

Definition digit_of (c : ascii) : option N :=
  let n := code c in
  if (48 <=? n)%N && (n <=? 57)%N then Some (n - 48)%N else None.

(** Strips the leading white space and line terminators: TAB, LF, VT, FF,
    CR, SP, and in UTF-8 U+00A0, U+1680, U+2000 to U+200A, U+2028, U+2029,
    U+202F, U+205F, U+3000 and U+FEFF. *)
Fixpoint trim_start (s : string) : string :=
  match s with
  | String c s1 =>
      let n := code c in
      if (n =? 9)%N || (n =? 10)%N || (n =? 11)%N || (n =? 12)%N
         || (n =? 13)%N || (n =? 32)%N
      then trim_start s1
      else
        match s1 with
        | String c2 s2 =>
            let n2 := code c2 in
            if (n =? 194)%N && (n2 =? 160)%N then trim_start s2
            else
              match s2 with
              | String c3 s3 =>
                  let n3 := code c3 in
                  if ((n =? 225)%N && (n2 =? 154)%N && (n3 =? 128)%N)
                     || ((n =? 226)%N && (n2 =? 128)%N
                         && (((128 <=? n3)%N && (n3 <=? 138)%N)
                             || (n3 =? 168)%N || (n3 =? 169)%N
                             || (n3 =? 175)%N))
                     || ((n =? 226)%N && (n2 =? 129)%N && (n3 =? 159)%N)
                     || ((n =? 227)%N && (n2 =? 128)%N && (n3 =? 128)%N)
                     || ((n =? 239)%N && (n2 =? 187)%N && (n3 =? 191)%N)
                  then trim_start s3
                  else s
              | EmptyString => s
              end
        | EmptyString => s
        end
  | EmptyString => s
  end.

(** Reads the longest run of decimal digits: the value accumulated onto
    [acc], the number of digits read, and the rest of the text. *)
Fixpoint digits (acc : N) (count : nat) (s : string) : N * nat * string :=
  match s with
  | String c s' =>
      match digit_of c with
      | Some d => digits (10 * acc + d)%N (S count) s'
      | None => (acc, count, s)
      end
  | EmptyString => (acc, count, s)
  end.

(** The optional ExponentPart: [e] or [E], an optional sign, and at least
    one digit; when that does not follow, the literal ends before it. *)
Definition exponent_part (s : string) : Z :=
  match s with
  | String c s1 =>
      if (code c =? 101)%N || (code c =? 69)%N then
        let '(neg, s2) :=
          match s1 with
          | String c1 s1' =>
              if (code c1 =? 45)%N then (true, s1')
              else if (code c1 =? 43)%N then (false, s1')
              else (false, s1)
          | EmptyString => (false, s1)
          end in
        let '(v, count, _) := digits 0 0 s2 in
        match count with
        | O => 0
        | S _ => if neg then - Z.of_N v else Z.of_N v
        end
      else 0
  | EmptyString => 0
  end.

(** StrUnsignedDecimalLiteral: [Infinity], or digits with an optional
    fraction and exponent, or a fraction that starts with the point. *)
Definition unsigned_literal (neg : bool) (s : string) : spec_float :=
  if String.prefix "Infinity" s then S754_infinity neg
  else
    let '(int_part, int_count, s1) := digits 0 0 s in
    match s1 with
    | String c s2 =>
        if (code c =? 46)%N then
          let '(coef, frac_count, s3) := digits int_part 0 s2 in
          match int_count, frac_count with
          | O, O => S754_nan
          | _, _ => of_decimal neg coef (exponent_part s3 - Z.of_nat frac_count)
          end
        else
          match int_count with
          | O => S754_nan
          | S _ => of_decimal neg int_part (exponent_part s1)
          end
    | EmptyString =>
        match int_count with
        | O => S754_nan
        | S _ => of_decimal neg int_part 0
        end
    end.

(** [parseFloat(string)]: the value of the longest prefix of the trimmed
    text that is a StrDecimalLiteral, and NaN when there is none. *)
Definition parseFloat (s : string) : spec_float :=
  match trim_start s with
  | String c s' =>
      if (code c =? 45)%N then unsigned_literal true s'
      else if (code c =? 43)%N then unsigned_literal false s'
      else unsigned_literal false (String c s')
  | EmptyString => S754_nan
  end.

(** *** [toFixed] *)

(** [10^21 <= m * 2^e] *)
Definition at_least_1e21 (m : positive) (e : Z) : bool :=
  if 0 <=? e then 10 ^ 21 <=? Z.pos m * 2 ^ e
  else 10 ^ 21 * 2 ^ (- e) <=? Z.pos m.

(** The integer [n] for which [n / 10^f - m * 2^e] is closest to zero, the
    larger one when two are equally close. *)
Definition scaled_nearest (m : positive) (e : Z) (f : nat) : Z :=
  if 0 <=? e then Z.pos m * 2 ^ e * 10 ^ Z.of_nat f
  else (2 * Z.pos m * 10 ^ Z.of_nat f + 2 ^ (- e)) / 2 ^ (- e + 1).

Fixpoint zeros (k : nat) : string :=
  match k with
  | O => EmptyString
  | S k' => String "0" (zeros k')
  end.

(** The digits of [n >= 0] with a point before the last [f] of them, padded
    with zeros on the left up to [f + 1] digits. *)
Definition fixed_digits (n : Z) (f : nat) : string :=
  let m := Str.of_Z n in
  match f with
  | O => m
  | S _ =>
      let k := String.length m in
      let m := if (k <=? f)%nat then zeros (f + 1 - k) +:+ m else m in
      let k := String.length m in
      Str.take (k - f) m +:+ "." +:+ Str.drop (k - f) m
  end.

(** Number::toString on the values for which [toFixed] calls it: integers
    [x = m * 2^e >= 10^21].  The digits are the shortest [s] (of [k]
    digits, [k] from 1 to 17) for which [s * 10^(n-k)] rounds to [x], the
    nearest to [x] when both neighbours do; the result is in exponent
    form, since [n > 21]. *)
Definition decimal_length (x : Z) : nat := String.length (Str.of_Z x).

Definition rounds_to (m : positive) (e : Z) (v : Z) : bool :=
  match binary_normalize prec emax v 0 false with
  | S754_finite _ m' e' => (Z.pos m' * 2 ^ e' =? Z.pos m * 2 ^ e)
  | _ => false
  end.

Definition shortest_at (m : positive) (e : Z) (n k : nat) : option Z :=
  let x := Z.pos m * 2 ^ e in
  let scale := 10 ^ Z.of_nat (n - k) in
  let lo := x / scale in
  let hi := lo + 1 in
  let lo_ok := rounds_to m e (lo * scale) in
  let hi_ok := rounds_to m e (hi * scale) in
  if lo_ok && hi_ok
  then Some (if x - lo * scale <=? hi * scale - x then lo * scale
             else hi * scale)
  else if lo_ok then Some (lo * scale)
  else if hi_ok then Some (hi * scale)
  else None.

Fixpoint shortest_from (m : positive) (e : Z) (n k fuel : nat) : Z :=
  match fuel with
  | O => Z.pos m * 2 ^ e
  | S fuel' =>
      match shortest_at m e n k with
      | Some v => v
      | None => shortest_from m e n (S k) fuel'
      end
  end.

Fixpoint strip_zeros_rev (s : list ascii) : list ascii :=
  match s with
  | "0"%char :: s' => strip_zeros_rev s'
  | _ => s
  end.

Definition toString_large (m : positive) (e : Z) : string :=
  let v := shortest_from m e (decimal_length (Z.pos m * 2 ^ e)) 1 17 in
  let all := Str.of_Z v in
  let n := String.length all in
  let s := String.string_of_list_ascii
             (rev (strip_zeros_rev (rev (String.list_ascii_of_string all)))) in
  let exponent := Str.of_Z (Z.of_nat n - 1) in
  match s with
  | String d EmptyString => String d ("e+" +:+ exponent)
  | String d ds => String d ("." +:+ ds +:+ "e+" +:+ exponent)
  | EmptyString => EmptyString
  end.

(** [x.toFixed(f)], for [f] from 0 to 100. *)
Definition toFixed (x : spec_float) (f : nat) : string :=
  match x with
  | S754_nan => "NaN"
  | S754_infinity false => "Infinity"
  | S754_infinity true => "-Infinity"
  | S754_zero _ => fixed_digits 0 f
  | S754_finite neg m e =>
      (if neg then "-" else "")
      +:+ (if at_least_1e21 m e then toString_large m e
           else fixed_digits (scaled_nearest m e f) f)
  end.

(** A decimal with at least one digit before the point and exactly four
    after it, with an optional minus sign. *)
Definition is_digit (c : ascii) : bool :=
  match digit_of c with Some _ => true | None => false end.

Fixpoint all_digits (s : string) : bool :=
  match s with
  | EmptyString => true
  | String c s' => is_digit c && all_digits s'
  end.

Fixpoint four_after_point (seen : bool) (s : string) : bool :=
  match s with
  | String c s' =>
      if (code c =? 46)%N
      then seen && (String.length s' =? 4)%nat && all_digits s'
      else is_digit c && four_after_point true s'
  | EmptyString => false
  end.

Definition four_decimals (s : string) : bool :=
  match s with
  | String c s' =>
      if (code c =? 45)%N then four_after_point false s'
      else four_after_point false s
  | EmptyString => false
  end.

(** Finite and of magnitude below [10^21]. *)
Definition in_fixed_range (x : spec_float) : bool :=
  match x with
  | S754_zero _ => true
  | S754_finite _ m e => negb (at_least_1e21 m e)
  | _ => false
  end.

Definition is_finite (x : spec_float) : bool :=
  match x with
  | S754_zero _ | S754_finite _ _ _ => true
  | _ => false
  end.

End Num.

(** ** The text of an integer in a template literal

    A template literal prints a Number with Number::toString.  An integer
    [z] read from JSON is the Number nearest to it; its text is the shortest
    run of digits [s] (of [k] digits) for which [s * 10^(n-k)] is read back
    as that Number, followed by [n - k] zeros when [n <= 21] and in
    exponent form beyond.  Up to [2^53] this is the decimal expansion of
    [z]; beyond, at most seventeen digits are significant and zeros fill
    the rest, and from [10^21] on the exponent form is used. *)

Module Integer.

Definition nearest (z : Z) : spec_float :=
  binary_normalize Num.prec Num.emax z 0 false.

(** The integer that a finite Number [m * 2^e >= 1] is. *)
Definition value (m : positive) (e : Z) : Z :=
  if 0 <=? e then Z.pos m * 2 ^ e else Z.pos m / 2 ^ (- e).

Definition same (x y : spec_float) : bool :=
  match x, y with
  | S754_finite s m e, S754_finite s' m' e' =>
      Bool.eqb s s' && (m =? m')%positive && (e =? e')
  | _, _ => false
  end.

(** The candidate of [k] digits for the integer Number [x] of [n] digits:
    of the two multiples of [10^(n-k)] around [x], one that is read back
    as [x], the nearer one when both are. *)
Definition shortest_at (x : Z) (n k : nat) : option Z :=
  let scale := 10 ^ Z.of_nat (n - k) in
  let lo := x / scale in
  let hi := lo + 1 in
  let lo_ok := same (nearest (lo * scale)) (nearest x) in
  let hi_ok := same (nearest (hi * scale)) (nearest x) in
  if lo_ok && hi_ok
  then Some (if x - lo * scale <=? hi * scale - x then lo * scale
             else hi * scale)
  else if lo_ok then Some (lo * scale)
  else if hi_ok then Some (hi * scale)
  else None.

Fixpoint shortest_from (x : Z) (n k fuel : nat) : Z :=
  match fuel with
  | O => x
  | S fuel' =>
      match shortest_at x n k with
      | Some v => v
      | None => shortest_from x n (S k) fuel'
      end
  end.

Definition toString_pos (p : positive) : string :=
  match nearest (Z.pos p) with
  | S754_finite _ m e =>
      let x := value m e in
      let v := shortest_from x (Num.decimal_length x) 1 17 in
      if (Num.decimal_length v <=? 21)%nat then Str.of_Z v
      else Num.toString_large m e
  | _ => "Infinity"
  end.

(** [`${z}`] *)
Definition toString (z : Z) : string :=
  match z with
  | Z0 => "0"
  | Zpos p => toString_pos p
  | Zneg p => "-" +:+ toString_pos p
  end.

End Integer.

(** ** Data model *)

(** JavaScript's [v || fallback] on a string-valued field that may be absent
    ([None]: [undefined] or [null]); the empty string is falsy as well. *)
Definition or_else (v : option string) (fallback : string) : string :=
  match v with
  | Some (String c s) => String c s
  | Some EmptyString | None => fallback
  end.

(** An attraction, as the API and the mock dataset give it.  The image
    may be absent. *)
Module Attraction.
Record t : Type := make {
  slug : string;
  name : string;
  region_name : string;
  featured_image : option string;
  difficulty_level : string;
  is_featured : bool
}.
End Attraction.

(** A region.  The latitude and the longitude are the decimal texts that
    the API sends (as in [latitude: "-3.0674"]); [attraction_count] is an
    integer of the JSON payload, of any size. *)
Module Region.
Record t : Type := make {
  slug : string;
  name : string;
  description : string;
  image : option string;
  latitude : string;
  longitude : string;
  attraction_count : Z
}.
End Region.

(** A contributor, as the GitHub API gives it; [contributions] is an
    integer of the JSON payload. *)
Module Contributor.
Record t : Type := make {
  login : string;
  avatar_url : string;
  html_url : string;
  contributions : Z
}.
End Contributor.

(** ** regions.js: data helper *)

(** [attractions.filter(a => a.region_name === regionName).slice(0, 3)] *)
Definition getAttractionsByRegion
    (attractions : list Attraction.t) (regionName : string)
    : list Attraction.t :=
  take 3 (filter (λ a, Attraction.region_name a = regionName) attractions).

(** ** regions.js: badge helper, card builder, section builder *)

(** [encodeURIComponent] on the UTF-8 bytes of a string: letters, digits and
    [- _ . ! ~ * ' ( )] stay, every other byte becomes [%XX]. *)
Definition hex_digit (n : N) : ascii :=
  ascii_of_N (if (n <? 10)%N then 48 + n else 55 + n)%N.

Definition unreserved (c : ascii) : bool :=
  let n := N_of_ascii c in
  ((48 <=? n)%N && (n <=? 57)%N) || ((65 <=? n)%N && (n <=? 90)%N)
  || ((97 <=? n)%N && (n <=? 122)%N)
  || (n =? 45)%N || (n =? 95)%N || (n =? 46)%N || (n =? 33)%N
  || (n =? 126)%N || (n =? 42)%N || (n =? 39)%N || (n =? 40)%N
  || (n =? 41)%N.

Fixpoint encodeURIComponent (s : string) : string :=
  match s with
  | EmptyString => EmptyString
  | String c s' =>
      if unreserved c then String c (encodeURIComponent s')
      else
        let n := N_of_ascii c in
        String "%" (String (hex_digit (n / 16)) (String (hex_digit (n mod 16))
          (encodeURIComponent s')))
  end.

(** Returns a colored difficulty badge <span>. *)
Definition difficultyBadge (level : string) : string :=
  html "<span class='badge-"
  +:+ level
  +:+ html " text-xs font-semibold px-2 py-0.5 rounded-full capitalize'>"
  +:+ level
  +:+ html "</span>".

(** Builds a compact mini-card HTML string for one attraction. *)
Definition buildAttractionCard (attraction : Attraction.t) : string :=
  let fallbackImg := "images/photo-1547036967-23d11aacaee0.jpg" in
  let imgSrc := or_else (Attraction.featured_image attraction) fallbackImg in
  html "
    <article class='group rounded-xl overflow-hidden bg-white shadow-sm hover:shadow-md transition-shadow'>

      <!-- Attraction thumbnail -->
      <div class='relative aspect-video overflow-hidden'>
        <img src='"
  +:+ imgSrc
  +:+ html "'
             alt='"
  +:+ Attraction.name attraction
  +:+ html "'
             class='w-full h-full object-cover group-hover:scale-105 transition-transform duration-500'
             loading='lazy' />
        <!-- Difficulty badge overlays the image bottom-left -->
        <div class='absolute bottom-2 left-2'>
          "
  +:+ difficultyBadge (Attraction.difficulty_level attraction)
  +:+ html "
        </div>
      </div>

      <!-- Card body: name + link -->
      <div class='p-4 flex items-center justify-between gap-2'>
        <h4 class='font-display text-sm font-bold text-tz-dark leading-snug'>
          "
  +:+ Attraction.name attraction
  +:+ html "
        </h4>
        <a href='attraction.html?slug="
  +:+ Attraction.slug attraction
  +:+ html "'
           class='shrink-0 text-tz-forest hover:text-tz-forest/70 transition-colors'
           aria-label='View details for "
  +:+ Attraction.name attraction
  +:+ html "'>
          <i data-lucide='arrow-right' class='w-4 h-4'></i>
        </a>
      </div>

    </article>
  ".

(** Builds the full HTML section for one region.  [index] is the zero-based
    position in the regions array. *)
Definition buildRegionSection
    (region : Region.t) (attractions : list Attraction.t) (index : nat)
    : string :=
  let fallbackImg := "images/photo-1547036967-23d11aacaee0.jpg" in
  let imgSrc := or_else (Region.image region) fallbackImg in
  let imageLeft := (index mod 2 =? 0)%nat in
  let lat := Num.toFixed (Num.parseFloat (Region.latitude region)) 4 in
  let lng := Num.toFixed (Num.parseFloat (Region.longitude region)) 4 in
  let attractionCards :=
    if (0 <? length attractions)%nat
    then Str.join (map buildAttractionCard attractions)
    else html "<p class='col-span-full text-tz-muted text-sm italic'>No attractions listed yet.</p>" in
  html "
    <!-- ── Region: "
  +:+ Region.name region
  +:+ html " ──────────────────────────────── -->
    <section id='region-"
  +:+ Region.slug region
  +:+ html "'
             class='scroll-mt-20'
             data-aos='fade-up'
             aria-labelledby='region-title-"
  +:+ Region.slug region
  +:+ html "'>

      <!-- Top row: hero image + description panel -->
      <div class='flex flex-col "
  +:+ (if imageLeft then "lg:flex-row" else "lg:flex-row-reverse")
  +:+ html " gap-8 lg:gap-12 items-stretch mb-10'>

        <!-- Region hero image — 1/3 width on desktop -->
        <div class='lg:w-1/3 shrink-0 rounded-2xl overflow-hidden shadow-md'>
          <img src='"
  +:+ imgSrc
  +:+ html "'
               alt='Landscape of "
  +:+ Region.name region
  +:+ html " region'
               class='w-full h-full object-cover min-h-64 lg:min-h-0'
               loading='lazy' />
        </div>

        <!-- Description panel — 2/3 width on desktop -->
        <div class='flex flex-col justify-center flex-1'>

          <!-- Region name -->
          <h2 id='region-title-"
  +:+ Region.slug region
  +:+ html "'
              class='font-display text-4xl sm:text-5xl font-bold text-tz-dark mb-4 leading-tight'>
            "
  +:+ Region.name region
  +:+ html "
          </h2>

          <!-- Description paragraph -->
          <p class='text-tz-muted text-base sm:text-lg leading-relaxed mb-6'>
            "
  +:+ Region.description region
  +:+ html "
          </p>

          <!-- Meta row: attraction count + GPS coordinates -->
          <div class='flex flex-wrap items-center gap-4 mb-8'>

            <!-- Attraction count badge -->
            <span class='inline-flex items-center gap-1.5 bg-tz-forest/10 text-tz-forest
                         text-sm font-semibold px-3 py-1.5 rounded-full'>
              <i data-lucide='map-pin' class='w-4 h-4' aria-hidden='true'></i>
              "
  +:+ Integer.toString (Region.attraction_count region)
  +:+ html " Attraction"
  +:+ (if bool_decide (Region.attraction_count region ≠ 1) then "s" else "")
  +:+ html "
            </span>

            <!-- GPS coordinates -->
            <span class='inline-flex items-center gap-1.5 bg-tz-sand text-tz-earth
                         text-sm font-mono px-3 py-1.5 rounded-full'
                  title='GPS coordinates for "
  +:+ Region.name region
  +:+ html "'>
              <i data-lucide='navigation' class='w-4 h-4' aria-hidden='true'></i>
              "
  +:+ lat
  +:+ html ", "
  +:+ lng
  +:+ html "
            </span>

          </div>

          <!-- 'View Attractions' CTA — links to attractions.html pre-filtered -->
          <div>
            <a href='attractions.html?region="
  +:+ encodeURIComponent (Region.name region)
  +:+ html "'
               class='inline-flex items-center gap-2 bg-tz-forest text-white font-semibold
                      px-6 py-3 rounded-full hover:bg-tz-forest/90 transition-colors shadow-sm'>
              View Attractions
              <i data-lucide='arrow-right' class='w-4 h-4' aria-hidden='true'></i>
            </a>
          </div>

        </div>
      </div>

      <!-- Attractions preview grid: up to 3 cards -->
      <div>
        <h3 class='font-display text-xl font-semibold text-tz-dark mb-5 flex items-center gap-2'>
          <i data-lucide='layout-grid' class='w-5 h-5 text-tz-savanna' aria-hidden='true'></i>
          Top Attractions in "
  +:+ Region.name region
  +:+ html "
        </h3>
        <div class='grid grid-cols-1 sm:grid-cols-2 lg:grid-cols-3 gap-5'
             aria-label='Attractions preview for "
  +:+ Region.name region
  +:+ html "'>
          "
  +:+ attractionCards
  +:+ html "
        </div>
      </div>

      <!-- Subtle divider (hidden on last item via CSS sibling, handled by spacing) -->
      <div class='mt-16 border-b border-gray-100' aria-hidden='true'></div>

    </section>
  ".

(** The two children of the top row of a section, and the order in which
    a flex row that lists the hero image first and the description panel
    second presents them on large screens: [lg:flex-row] keeps the order of
    the markup, [lg:flex-row-reverse] reverses it. *)
Inductive Block : Type := HeroImage | DescriptionPanel.

Definition presented_order (direction : string) : list Block :=
  if decide (direction = "lg:flex-row-reverse")
  then [DescriptionPanel; HeroImage]
  else [HeroImage; DescriptionPanel].

(** ** Effects

    A JavaScript error value is kept by its [name] and [message].  A
    completion is what a piece of code ends in: a value, or a thrown error.
    A promise is identified with the completion it settles in.

    The console, the DOM, the timers, and the icon and animation libraries
    (lucide, AOS) are outside the scripts: a call into them is an event of
    the trace and returns normally. *)

Record JSError : Type := mkError { err_name : string; message : string }.

Definition Error (msg : string) : JSError := mkError "Error" msg.

Inductive completion (A : Type) : Type :=
  | Returns (a : A)
  | Throws (e : JSError).
Arguments Returns {A} a.
Arguments Throws {A} e.

Inductive event : Type :=
  | EvSetTimeout (ms : Z)                      (* setTimeout(callback, ms) *)
  | EvClearTimeout                             (* clearTimeout(timeoutId) *)
  | EvFetch (url : string)                     (* fetch(url, ...) *)
  | EvConsoleWarn (label detail : string)      (* console.warn(label, detail) *)
  | EvConsoleError (label : string) (err : JSError)
  | EvInnerHTML (element markup : string)      (* element.innerHTML = markup *)
  | EvCreateIcons                              (* lucide.createIcons() *)
  | EvAosRefresh                               (* AOS.refresh() *)
  | EvScrollIntoView (id : string).            (* target.scrollIntoView() *)

Definition M (A : Type) : Type := completion A * list event.

Definition ret {A} (a : A) : M A := (Returns a, []).
Definition throw {A} (e : JSError) : M A := (Throws e, []).
Definition emit (ev : event) : M unit := (Returns tt, [ev]).

Definition bind {A B} (m : M A) (k : A → M B) : M B :=
  match m with
  | (Returns a, t) => let '(r, t') := k a in (r, t ++ t')
  | (Throws e, t) => (Throws e, t)
  end.

Instance M_ret : MRet M := @ret.
Instance M_bind : MBind M := λ A B k m, bind m k.

(** [try { body } catch (err) { handler }] *)
Definition try_catch {A} (body : M A) (handler : JSError → M A) : M A :=
  match body with
  | (Returns a, t) => (Returns a, t)
  | (Throws e, t) => let '(r, t') := handler e in (r, t ++ t')
  end.

(** A promise, by the completion it settles in. *)
Definition Promise (A : Type) : Type := completion A.

(** [await p]: the value of a fulfilled promise; a rejection is thrown at
    the place of the [await]. *)
Definition await {A} (p : Promise A) : M A := (p, []).

(** The promise of an [async] function whose body completes with [return p]
    for a promise [p] adopts the state of [p].  This happens after the body,
    with its [try] blocks, has been left. *)
Definition async_return {A} (body : M (Promise A)) : M A :=
  match body with
  | (Returns p, t) => (p, t)
  | (Throws e, t) => (Throws e, t)
  end.

Definition result {A} (m : M A) : completion A := fst m.
Definition trace {A} (m : M A) : list event := snd m.

Definition is_warning (ev : event) : bool :=
  match ev with EvConsoleWarn _ _ => true | _ => false end.

(** The markup written into the element [id], in order. *)
Fixpoint writes_to (id : string) (t : list event) : list string :=
  match t with
  | [] => []
  | EvInnerHTML el markup :: t' =>
      if decide (el = id) then markup :: writes_to id t' else writes_to id t'
  | _ :: t' => writes_to id t'
  end.

Definition is_write (ev : event) : bool :=
  match ev with EvInnerHTML _ _ => true | _ => false end.

(** ** api.js: the data source adapter *)

(** What the network gives back to one [fetch] call. *)
Record Response (A : Type) : Type := mkResponse {
  status : Z;
  json : Promise A        (* res.json(): the parsed body, or a rejection *)
}.
Arguments mkResponse {A} status json.
Arguments status {A} r.
Arguments json {A} r.

(** [res.ok]: the status is in the range 200-299. *)
Definition ok {A} (res : Response A) : bool :=
  (200 <=? status res) && (status res <=? 299).

Inductive FetchResult (A : Type) : Type :=
  | Responded (res : Response A)   (* the response headers arrived *)
  | NetworkError (e : JSError)     (* fetch rejects: unreachable, DNS, CORS *)
  | Aborted (e : JSError).         (* the abort timer fired first; [e] is the
                                      AbortError the rejected fetch carries *)
Arguments Responded {A} res.
Arguments NetworkError {A} e.
Arguments Aborted {A} e.

(** [await fetch(url, { signal })] against the network oracle [net]. *)
Definition fetch {A} (net : string → FetchResult A) (url : string)
    : M (Response A) :=
  emit (EvFetch url);;
  match net url with
  | Responded res => ret res
  | NetworkError e => throw e
  | Aborted e => throw e
  end.

Definition API_BASE : string :=
  "https://cf89615f228bb45cc805447510de80.pythonanywhere.com".

(** Generic fetch with mock fallback and timeout.  [USE_MOCK] is the
    module-level flag, [net] the network, [mockFallback] the fallback
    producer (a thunk: running it may throw).  The [try] block ends in
    [return res.json()], which hands the promise back without awaiting it. *)
Definition apiFetch {A} (USE_MOCK : bool) (net : string → FetchResult A)
    (path : string) (mockFallback : M A) : M A :=
  if USE_MOCK then mockFallback
  else
    async_return
      (try_catch
         (emit (EvSetTimeout 8000);;
          res ← fetch net (API_BASE +:+ path);
          emit EvClearTimeout;;
          if negb (ok res)
          then throw (Error ("API error: " +:+ Str.of_Z (status res)))
          else ret (json res))
         (λ err,
            emit (EvConsoleWarn
                    ("[api] Falling back to mock data for " +:+ path +:+ ":")
                    (message err));;
            v ← mockFallback;
            ret (Returns v))).

(** [export const USE_MOCK = false].  The endpoints below take the flag as
    an argument, so that both settings can be stated. *)
Definition USE_MOCK : bool := false.

(** The mock dataset of mockdata.js, as far as the endpoints below read it.
    Its contents are data of the site, taken here as a parameter.
    [attractionDetails] is the object used as a map from slug to detail:
    the field holds the entries the object was written with, its own
    properties.  [Detail] is the type of the values that a read of the
    object can give: the detail records, and whatever else is stored in it
    or inherited by it. *)
Record MockData (Detail : Type) : Type := mkMockData {
  regions : list Region.t;
  attractions : list Attraction.t;
  attractionDetails : gmap string Detail
}.
Arguments regions {Detail} m.
Arguments attractions {Detail} m.
Arguments attractionDetails {Detail} m.

(** The network, one oracle per payload type. *)
Record Network (Detail : Type) : Type := mkNetwork {
  regions_net : string → FetchResult (list Region.t);
  attractions_net : string → FetchResult (list Attraction.t);
  detail_net : string → FetchResult Detail
}.
Arguments regions_net {Detail} n.
Arguments attractions_net {Detail} n.
Arguments detail_net {Detail} n.

(** The names that an object written as a literal inherits from
    [Object.prototype]; each of them reads as a function or an object, which
    is truthy. *)
Definition Object_prototype_names : list string :=
  [ "constructor"; "hasOwnProperty"; "isPrototypeOf"; "propertyIsEnumerable";
    "toLocaleString"; "toString"; "valueOf"; "__proto__";
    "__defineGetter__"; "__defineSetter__"; "__lookupGetter__";
    "__lookupSetter__" ].

(** What an object literal inherits, given the value [member k] that the
    member named [k] reads as. *)
Definition inherited_by_literal {Detail} (member : string → Detail)
    (k : string) : option Detail :=
  if bool_decide (k ∈ Object_prototype_names) then Some (member k) else None.

Module api.
Section Endpoints.

Context {Detail : Type}.
Variables (use_mock : bool) (net : Network Detail)
            (MOCK_DATA : MockData Detail).

(** What [getAttraction] needs to know of the values it reads:
    [truthy v] is ToBoolean of [v] (false for [null], [0], the empty string
    and the like), and [inherited k] is what the prototype chain of the
    [attractionDetails] object holds under the name [k] (for an object
    literal the members of [Object.prototype], see
    [Object_prototype_names]). *)
Variables (truthy : Detail → bool) (inherited : string → option Detail).

  (** GET /api/v1/regions/ *)
Definition getRegions : M (list Region.t) :=
    apiFetch use_mock (regions_net net) "/regions/" (ret (regions MOCK_DATA)).

  (** GET /api/v1/attractions/ *)
Definition getAttractions : M (list Attraction.t) :=
    apiFetch use_mock (attractions_net net) "/attractions/"
      (ret (attractions MOCK_DATA)).

  (** GET /api/v1/attractions/featured/ *)
Definition getFeaturedAttractions : M (list Attraction.t) :=
    apiFetch use_mock (attractions_net net) "/attractions/featured/"
      (ret (filter (λ a, Attraction.is_featured a = true)
                   (attractions MOCK_DATA))).

  (** [MOCK_DATA.attractionDetails[slug]]: the own property of that name,
      and where there is none what the prototype chain holds; [None] is
      [undefined]. *)
Definition readDetail (slug : string) : option Detail :=
    match attractionDetails MOCK_DATA !! slug with
    | Some detail => Some detail
    | None => inherited slug
    end.

  (** The fallback producer of [getAttraction]: [if (!detail) throw ...;
      return detail]. *)
Definition attractionFallback (slug : string) : M Detail :=
    let not_found :=
      Error (html "Attraction '" +:+ slug
             +:+ html "' not found in mock data") in
    match readDetail slug with
    | Some detail => if truthy detail then ret detail else throw not_found
    | None => throw not_found
    end.

  (** GET /api/v1/attractions/:slug/ *)
Definition getAttraction (slug : string) : M Detail :=
    apiFetch use_mock (detail_net net) ("/attractions/" +:+ slug +:+ "/")
      (attractionFallback slug).

End Endpoints.
End api.


(** ** The page, as the controllers query it *)

Record Page : Type := mkPage {
  (** [document.getElementById(id)] finds an element.  The first argument
      is the markup the script has written into its container so far
      ([None] before any write). *)
  getElementById : option string → string → bool;
  (** [typeof lucide !== 'undefined'] and [typeof AOS !== 'undefined'] *)
  lucide_defined : bool;
  AOS_defined : bool;
  (** [new URLSearchParams(window.location.search).get('highlight')] *)
  highlight : option string
}.

(** [await Promise.all([a, b])]: both calls are started, so the events of
    both occur; the result is the pair of values, or the rejection of the
    call that rejects first.  The two calls run interleaved, and which of
    them settles first is decided by the network.  The model fixes one
    schedule, in which [a] runs to its end before [b]: [a]'s events are
    listed first, and [a]'s rejection is taken when both reject.  The
    order among the events of the two calls and the choice between two
    rejections are therefore conventions of the model, not facts of the
    code. *)
Definition Promise_all2 {A B} (a : M A) (b : M B) : M (A * B) :=
  let '(ra, ta) := a in
  let '(rb, tb) := b in
  (match ra, rb with
   | Returns x, Returns y => Returns (x, y)
   | Throws e, _ => Throws e
   | _, Throws e => Throws e
   end, ta ++ tb).

(** The two entries of the [api] object that the regions page calls. *)
Record Api : Type := mkApi {
  api_getRegions : M (list Region.t);
  api_getAttractions : M (list Attraction.t)
}.

(** The [api] object of api.js. *)
Definition api_object {Detail} (use_mock : bool) (net : Network Detail)
    (MOCK_DATA : MockData Detail) : Api :=
  mkApi (api.getRegions use_mock net MOCK_DATA)
        (api.getAttractions use_mock net MOCK_DATA).

(** ** regions.js: the page controller *)

(** The markup that the [catch] block of [init] writes. *)
Definition regions_failure_markup : string :=
  html "
      <p class='text-center text-red-500 py-16'>
        Failed to load regions. Please try refreshing the page.
      </p>
    ".

(** Main entry point of the regions page.  The scroll to the highlighted
    section runs from a timer, 150 ms later; it is listed after the event
    that sets the timer. *)
Definition init (page : Page) (api : Api) : M unit :=
  if negb (getElementById page None "regions-container") then ret tt
  else
    try_catch
      ('(regions, attractions) ←
         Promise_all2 (api_getRegions api) (api_getAttractions api);
       let markup :=
         Str.join
           (imap (λ index region,
                    let preview :=
                      getAttractionsByRegion attractions (Region.name region)
                    in buildRegionSection region preview index)
                 regions) in
       emit (EvInnerHTML "regions-container" markup);;
       (if lucide_defined page then emit EvCreateIcons else ret tt);;
       (if AOS_defined page then emit EvAosRefresh else ret tt);;
       match highlight page with
       | Some (String c h) =>
           let id := "region-" +:+ String c h in
           if getElementById page (Some markup) id
           then emit (EvSetTimeout 150);; emit (EvScrollIntoView id)
           else ret tt
       | Some EmptyString | None => ret tt
       end)
      (λ err,
         emit (EvConsoleError "[regions] Failed to load regions:" err);;
         emit (EvInnerHTML "regions-container" regions_failure_markup)).

(** ** about.js: the contributor loader *)

Definition GITHUB_REPO : string := "cleven12/twenzetu-safari-web".

Definition contributorCard (c : Contributor.t) : string :=
  html "
      <a href='"
  +:+ Contributor.html_url c
  +:+ html "' target='_blank' rel='noopener noreferrer'
         class='contributor-card bg-white rounded-xl p-5 shadow-sm border border-gray-100
                flex flex-col items-center text-center'
         data-aos='fade-up'>
        <img src='"
  +:+ Contributor.avatar_url c
  +:+ html "&s=80' alt='"
  +:+ Contributor.login c
  +:+ html "' class='w-14 h-14 rounded-full mb-3 shadow-sm' loading='lazy' />
        <span class='font-semibold text-tz-dark text-sm'>"
  +:+ Contributor.login c
  +:+ html "</span>
        <span class='text-xs text-tz-muted mt-1'>"
  +:+ Integer.toString (Contributor.contributions c)
  +:+ html " contribution"
  +:+ (if bool_decide (Contributor.contributions c ≠ 1) then "s" else "")
  +:+ html "</span>
      </a>
    ".

(** The markup written for an empty contributor list. *)
Definition contributors_empty_markup : string :=
  html "<p class='col-span-full text-tz-muted text-center text-sm'>No contributors found yet. Be the first!</p>".

(** The markup that the [catch] block of [loadContributors] writes. *)
Definition contributors_failure_markup : string :=
  html "
      <div class='col-span-full text-center py-8'>
        <p class='text-tz-muted text-sm mb-3'>Could not load contributors from GitHub. They may be rate-limited.</p>
        <a href='https://github.com/"
  +:+ GITHUB_REPO
  +:+ html "/graphs/contributors' target='_blank' rel='noopener noreferrer'
           class='inline-flex items-center gap-2 text-sm font-semibold text-tz-forest hover:text-tz-forest/80 transition-colors'>
          <i data-lucide='external-link' class='w-4 h-4'></i> View contributors on GitHub
        </a>
      </div>
    ".

(** Fetches contributors from the GitHub API and renders them. *)
Definition loadContributors (page : Page)
    (net : string → FetchResult (list Contributor.t)) : M unit :=
  if negb (getElementById page None "contributors-grid") then ret tt
  else
    try_catch
      (res ← fetch net ("https://api.github.com/repos/" +:+ GITHUB_REPO
                        +:+ "/contributors?per_page=20");
       if negb (ok res)
       then throw (Error ("GitHub API: " +:+ Str.of_Z (status res)))
       else
         contributors ← await (json res);
         if (length contributors =? 0)%nat
         then
           emit (EvInnerHTML "contributors-grid" contributors_empty_markup)
         else
           emit (EvInnerHTML "contributors-grid"
                   (Str.join (map contributorCard contributors)));;
           (if AOS_defined page then emit EvAosRefresh else ret tt))
      (λ err,
         emit (EvConsoleWarn "[about] Failed to load contributors:"
                 (message err));;
         emit (EvInnerHTML "contributors-grid" contributors_failure_markup);;
         (if lucide_defined page then emit EvCreateIcons else ret tt)).

(** ** Vocabulary of the statements *)

(** The events of the network attempt up to the point where it fails or a
    response is in hand. *)
Definition attempt_events (path : string) : list event :=
  [EvSetTimeout 8000; EvFetch (API_BASE +:+ path)].

Definition fallback_warning (path : string) (err : JSError) : event :=
  EvConsoleWarn ("[api] Falling back to mock data for " +:+ path +:+ ":")
                (message err).

(** The results that make [apiFetch] enter its [catch] block, with the error
    caught there. *)
Inductive attempt_fails {A} (path : string) (net : string → FetchResult A)
    : JSError → list event → Prop :=
  | fails_status res :
      net (API_BASE +:+ path) = Responded res →
      ok res = false →
      attempt_fails path net
        (Error ("API error: " +:+ Str.of_Z (status res)))
        (attempt_events path ++ [EvClearTimeout])
  | fails_network e :
      net (API_BASE +:+ path) = NetworkError e →
      attempt_fails path net e (attempt_events path)
  | fails_abort e :
      net (API_BASE +:+ path) = Aborted e →
      attempt_fails path net e (attempt_events path).

(** The markup of all region sections, as [init] joins it. *)
Definition regions_markup (regions : list Region.t)
    (attractions : list Attraction.t) : string :=
  Str.join
    (imap (λ index region,
             buildRegionSection region
               (getAttractionsByRegion attractions (Region.name region)) index)
          regions).

Definition contributors_url : string :=
  "https://api.github.com/repos/" +:+ GITHUB_REPO
  +:+ "/contributors?per_page=20".

(** The ways in which loading the contributors fails: a non-success
    status, a rejected [fetch], or a body that does not parse. *)
Inductive contributors_fetch_fails
    (net : string → FetchResult (list Contributor.t)) : JSError → Prop :=
  | cf_status res :
      net contributors_url = Responded res → ok res = false →
      contributors_fetch_fails net
        (Error ("GitHub API: " +:+ Str.of_Z (status res)))
  | cf_network e :
      net contributors_url = NetworkError e → contributors_fetch_fails net e
  | cf_abort e :
      net contributors_url = Aborted e → contributors_fetch_fails net e
  | cf_parse res e :
      net contributors_url = Responded res → ok res = true →
      json res = Throws e → contributors_fetch_fails net e.


(** ** api.js: the remaining endpoints *)

(** [MOCK_DATA.weather], by the three entries the weather endpoints read.
    The shapes of the entries are data of the site. *)
Record WeatherMock (Current Forecast Seasonal : Type) : Type :=
  mkWeatherMock {
    current_weather : Current;
    forecast : Forecast;
    seasonal_patterns : Seasonal
  }.
Arguments mkWeatherMock {Current Forecast Seasonal} _ _ _.
Arguments current_weather {Current Forecast Seasonal} w.
Arguments forecast {Current Forecast Seasonal} w.
Arguments seasonal_patterns {Current Forecast Seasonal} w.

Module api_weather.
Section Endpoints.

Context {Current Forecast Seasonal : Type}.
Variables (use_mock : bool)
          (weather : WeatherMock Current Forecast Seasonal).

(** GET /api/v1/weather/current/?attraction=:slug *)
Definition getWeather (net : string → FetchResult Current) (slug : string)
    : M Current :=
  apiFetch use_mock net ("/weather/current/?attraction=" +:+ slug)
    (ret (current_weather weather)).

(** GET /api/v1/weather/forecast/?attraction=:slug *)
Definition getWeatherForecast (net : string → FetchResult Forecast)
    (slug : string) : M Forecast :=
  apiFetch use_mock net ("/weather/forecast/?attraction=" +:+ slug)
    (ret (forecast weather)).

(** GET /api/v1/weather/seasonal/?attraction=:slug *)
Definition getSeasonalPatterns (net : string → FetchResult Seasonal)
    (slug : string) : M Seasonal :=
  apiFetch use_mock net ("/weather/seasonal/?attraction=" +:+ slug)
    (ret (seasonal_patterns weather)).

End Endpoints.
End api_weather.

(** The two grouping endpoints.  Their fallback is the empty object [{}]:
    a mapping without entries, whatever the shape [Group] of an entry. *)
Module api_groups.
Section Endpoints.

Context {Group : Type}.
Variables (use_mock : bool) (net : string → FetchResult (gmap string Group)).

(** GET /api/v1/attractions/by_category/ *)
Definition getAttractionsByCategory : M (gmap string Group) :=
  apiFetch use_mock net "/attractions/by_category/" (ret ∅).

(** GET /api/v1/attractions/by_region/ *)
Definition getAttractionsByRegion : M (gmap string Group) :=
  apiFetch use_mock net "/attractions/by_region/" (ret ∅).

End Endpoints.
End api_groups.

(** ** Further vocabulary *)

Definition is_fetch (ev : event) : bool :=
  match ev with EvFetch _ => true | _ => false end.

Definition is_timer (ev : event) : bool :=
  match ev with EvSetTimeout _ | EvClearTimeout => true | _ => false end.

(** A network on which every request is refused. *)
Definition offline {A} : string → FetchResult A :=
  λ _, NetworkError (mkError "TypeError" "Failed to fetch").

(** Every character of a string passes the test. *)
Fixpoint all_chars (test : ascii → bool) (s : string) : bool :=
  match s with
  | EmptyString => true
  | String c s' => test c && all_chars test s'
  end.

(** The characters that [encodeURIComponent] produces: the unreserved ones
    (which hold the hexadecimal digits) and the percent sign. *)
Definition url_safe (c : ascii) : bool :=
  unreserved c || Ascii.eqb c "%".

(** Reading the escapes back: [%XX] gives the byte of value [XX]. *)
Definition unhex (c : ascii) : N :=
  let n := N_of_ascii c in
  if (n <? 58)%N then (n - 48)%N else (n - 55)%N.

Fixpoint percent_decode (s : string) : string :=
  match s with
  | EmptyString => EmptyString
  | String c rest =>
      if Ascii.eqb c "%" then
        match rest with
        | String h (String l rest') =>
            String (ascii_of_N (16 * unhex h + unhex l))
                   (percent_decode rest')
        | _ => s
        end
      else String c (percent_decode rest)
  end.

(** ** download-images.sh

    The script that fetches the photographs of the site into [src/images].
    The regular files on disk are a finite map from path to size (as
    [du -h] prints it); [curl] is the network: for an address, the size of
    what it writes to its output file, or [None] when it writes nothing.
    The script runs without [set -e]: a failed command does not stop it. *)

Inductive sh_event : Type :=
  | ShMkdir (dir : string)                 (* mkdir -p dir *)
  | ShEcho (line : string)                 (* echo line *)
  | ShCurl (url out : string).             (* curl -sL url -o out *)

Definition DEST : string := "src/images".

Definition PHOTOS : list string :=
  [ "photo-1466721591366-2d5fba72006d";
    "photo-1504173010664-32509107de72";
    "photo-1507525428034-b723cf961d3e";
    "photo-1516026672322-bc52d61a55d5";
    "photo-1516426122078-c23e76319801";
    "photo-1519659528534-7fd733a832a0";
    "photo-1520483691742-bada60a1edd6";
    "photo-1535083783855-ade8a849ce28";
    "photo-1535941339077-2dd1c7963098";
    "photo-1547036967-23d11aacaee0";
    "photo-1559523161-0fc0d8b38a7a";
    "photo-1568393691622-c7ba131d63b4";
    "photo-1574492867640-10ba7b2e2b38";
    "photo-1575550959106-5a7defe28b56";
    "photo-1586348943529-beaae6c28db9";
    "photo-1590523277543-a94d2e4eb00b";
    "photo-1596040033229-a9821ebd058d";
    "photo-1609198092458-38a293c7ac4b";
    "photo-1619711678715-6c1eb47a3553";
    "photo-1621414050946-1b8b54914a61" ].

(** [OUT="$DEST/${PHOTO}.jpg"] and the address given to [curl]. *)
Definition photo_out (PHOTO : string) : string :=
  DEST +:+ "/" +:+ PHOTO +:+ ".jpg".

Definition photo_url (PHOTO : string) : string :=
  "https://images.unsplash.com/" +:+ PHOTO
  +:+ "?w=1200&q=75&fm=jpg&fit=crop".

(** The body of the [for] loop, over the photographs still to go. *)
Fixpoint download_loop (curl : string → option string)
    (photos : list string) (files : gmap string string)
    : gmap string string * list sh_event :=
  match photos with
  | [] => (files, [])
  | PHOTO :: rest =>
      let OUT := photo_out PHOTO in
      match files !! OUT with
      | Some _ =>
          let '(files', log) := download_loop curl rest files in
          (files', ShEcho ("Already exists: " +:+ OUT) :: log)
      | None =>
          let saved :=
            match curl (photo_url PHOTO) with
            | Some size => <[OUT := size]> files
            | None => files
            end in
          let '(files', log) := download_loop curl rest saved in
          (files',
           ShEcho ("Downloading " +:+ PHOTO +:+ "...")
           :: ShCurl (photo_url PHOTO) OUT
           :: ShEcho ("  Saved: " +:+ OUT +:+ " ("
                      +:+ default "" (saved !! OUT) +:+ ")")
           :: log)
      end
  end.

(** The whole script, over the photographs [photos]. *)
Definition download_images_of (photos : list string)
    (curl : string → option string) (files : gmap string string)
    : gmap string string * list sh_event :=
  let '(files', log) := download_loop curl photos files in
  (files',
   [ShMkdir DEST] ++ log
   ++ [ShEcho ""; ShEcho ("Done! All images saved to " +:+ DEST +:+ "/")]).

Definition download_images := download_images_of PHOTOS.

(** The downloads that a run asks for, in order. *)
Fixpoint curl_requests (log : list sh_event) : list (string * string) :=
  match log with
  | [] => []
  | ShCurl url out :: log' => (url, out) :: curl_requests log'
  | _ :: log' => curl_requests log'
  end.
(** * Properties *)

(** ** Facts about strings *)

Module StrFacts.

Lemma app_cons x (a b : string) : String x a +:+ b = String x (a +:+ b).
Proof. reflexivity. Qed.

Lemma app_nil_l (a : string) : "" +:+ a = a.
Proof. reflexivity. Qed.

Lemma app_assoc (a b c : string) : (a +:+ b) +:+ c = a +:+ b +:+ c.
Proof.
  induction a as [|x a IH]; [done|]. by rewrite !app_cons, IH.
Qed.

Lemma app_nil_r (a : string) : a +:+ "" = a.
Proof. induction a as [|x a IH]; [done|]. by rewrite app_cons, IH. Qed.

Lemma app_length (a b : string) :
  String.length (a +:+ b) = (String.length a + String.length b)%nat.
Proof.
  induction a as [|x a IH]; [done|]. rewrite app_cons. simpl. by rewrite IH.
Qed.

Lemma occurs_in_here s post : Str.occurs_in s (s +:+ post).
Proof. by exists "", post. Qed.

Lemma occurs_in_skip a s t : Str.occurs_in s t → Str.occurs_in s (a +:+ t).
Proof.
  intros (pre & post & ->). exists (a +:+ pre), post.
  by rewrite app_assoc.
Qed.

Lemma take_drop n (s : string) : Str.take n s +:+ Str.drop n s = s.
Proof.
  revert n. induction s as [|c s IH]; intros [|n]; simpl; try done.
  by rewrite app_cons, IH.
Qed.

(** A piece [x1 +:+ Y] occurs in [a +:+ T] as soon as [x1] ends [a] and [Y]
    starts [T]. *)
Lemma occurs_in_suffix (a x1 Y T : string) :
  Str.drop (String.length a - String.length x1) a = x1 →
  Str.starts_with Y T →
  Str.occurs_in (x1 +:+ Y) (a +:+ T).
Proof.
  intros Ha [rest ->].
  exists (Str.take (String.length a - String.length x1) a), rest.
  rewrite <- (take_drop (String.length a - String.length x1) a) at 1.
  by rewrite Ha, !app_assoc.
Qed.

Lemma starts_with_same (v Y T : string) :
  Str.starts_with Y T → Str.starts_with (v +:+ Y) (v +:+ T).
Proof. intros [rest ->]. exists rest. by rewrite app_assoc. Qed.

Lemma starts_with_prefix (x2 b T : string) :
  Str.take (String.length x2) b = x2 → Str.starts_with x2 (b +:+ T).
Proof.
  intros Hb. exists (Str.drop (String.length x2) b +:+ T).
  rewrite <- (take_drop (String.length x2) b) at 1.
  by rewrite Hb, app_assoc.
Qed.

Lemma starts_with_prefix_end (x2 b : string) :
  Str.take (String.length x2) b = x2 → Str.starts_with x2 b.
Proof.
  intros Hb. exists (Str.drop (String.length x2) b).
  rewrite <- (take_drop (String.length x2) b) at 1. by rewrite Hb.
Qed.

Lemma occurs_in_starts (X T : string) :
  Str.starts_with X T → Str.occurs_in X T.
Proof. intros [rest ->]. apply occurs_in_here. Qed.

Lemma containsb_occurs (s t : string) :
  Str.containsb s t = true → Str.occurs_in s t.
Proof.
  induction t as [|c t IH]; simpl; intros H.
  - apply orb_true_iff in H as [H|H]; [|done].
    apply String.eqb_eq in H. apply occurs_in_starts.
    by apply starts_with_prefix_end.
  - apply orb_true_iff in H as [H|H].
    + apply String.eqb_eq in H. apply occurs_in_starts.
      by apply starts_with_prefix_end.
    + change (String c t) with (String c "" +:+ t).
      by apply occurs_in_skip, IH.
Qed.

End StrFacts.

(** ** Properties of the preview selection *)

Section PreviewSelection.

Variables (attractions : list Attraction.t) (regionName : string).

Lemma getAttractionsByRegion_length :
  (length (getAttractionsByRegion attractions regionName) ≤ 3)%nat.
Proof. unfold getAttractionsByRegion. rewrite length_take. lia. Qed.

Lemma getAttractionsByRegion_region :
  Forall (λ a, Attraction.region_name a = regionName)
         (getAttractionsByRegion attractions regionName).
Proof.
  unfold getAttractionsByRegion. apply Forall_take, Forall_forall.
  intros a Ha. by apply list_elem_of_filter in Ha as [? _].
Qed.

Lemma getAttractionsByRegion_sublist :
  getAttractionsByRegion attractions regionName `sublist_of` attractions.
Proof.
  unfold getAttractionsByRegion.
  etrans; [apply sublist_take | apply sublist_filter].
Qed.

End PreviewSelection.

(** C4. For every attractions list and region name, the preview selection
    has at most 3 items, each with [region_name] exactly (byte for byte, so
    case-sensitively) equal to the region name, and it is a subsequence of
    the source list: the items keep the relative order of the source, no
    sort is applied. *)
Theorem getAttractionsByRegion_preview
    (attractions : list Attraction.t) (regionName : string) :
  let preview := getAttractionsByRegion attractions regionName in
  (length preview ≤ 3)%nat
  ∧ Forall (λ a, Attraction.region_name a = regionName) preview
  ∧ preview `sublist_of` attractions.
Proof.
  split_and!;
    [ apply getAttractionsByRegion_length
    | apply getAttractionsByRegion_region
    | apply getAttractionsByRegion_sublist ].
Qed.

(** ** The adapter: what happens on each kind of network result *)

Section Adapter.

Context {A : Type}.
Variables (net : string → FetchResult A) (path : string).

Lemma apiFetch_use_mock (mockFallback : M A) :
  apiFetch true net path mockFallback = mockFallback.
Proof. reflexivity. Qed.

(** Success status and a body that parses: the parsed body is the result;
    the fallback producer plays no part. *)
Lemma apiFetch_success (mockFallback : M A) res v :
  net (API_BASE +:+ path) = Responded res →
  ok res = true →
  json res = Returns v →
  apiFetch false net path mockFallback
  = (Returns v, attempt_events path ++ [EvClearTimeout]).
Proof.
  intros Hnet Hok Hjson. unfold apiFetch, fetch, mbind, M_bind, bind; simpl.
  rewrite Hnet; simpl. rewrite Hok; simpl. by rewrite Hjson.
Qed.

(** Non-success status, network error or abort: one warning, then the
    fallback producer decides the result, whatever it is. *)
Lemma apiFetch_falls_back (mockFallback : M A) err events :
  attempt_fails path net err events →
  apiFetch false net path mockFallback
  = (result mockFallback,
     events ++ [fallback_warning path err] ++ trace mockFallback).
Proof.
  destruct mockFallback as [[v|e] t];
    intros [res Hnet Hok | e' Hnet | e' Hnet];
    unfold apiFetch, fetch, mbind, M_bind, bind; simpl;
    rewrite Hnet; simpl; rewrite ?Hok; simpl; by rewrite ?app_nil_r.
Qed.

(** Success status and a body that fails to parse: the rejection of
    [res.json()] becomes the rejection of [apiFetch]. *)
Lemma apiFetch_body_rejected (mockFallback : M A) res e :
  net (API_BASE +:+ path) = Responded res →
  ok res = true →
  json res = Throws e →
  apiFetch false net path mockFallback
  = (Throws e, attempt_events path ++ [EvClearTimeout]).
Proof.
  intros Hnet Hok Hjson. unfold apiFetch, fetch, mbind, M_bind, bind; simpl.
  rewrite Hnet; simpl. rewrite Hok; simpl. by rewrite Hjson.
Qed.

End Adapter.

Lemma attempt_fails_quiet {A} path (net : string → FetchResult A) err events :
  attempt_fails path net err events →
  filter is_warning events = [] ∧ filter is_write events = [].
Proof. by intros [res _ _ | e _ | e _]. Qed.

(** On a failed attempt the adapter itself logs exactly one warning, and it
    names the path and carries the message of the error. *)
Lemma apiFetch_one_warning {A} path (net : string → FetchResult A)
    (mockFallback : M A) err events :
  attempt_fails path net err events →
  filter is_warning (trace mockFallback) = [] →
  filter is_warning (trace (apiFetch false net path mockFallback))
  = [EvConsoleWarn ("[api] Falling back to mock data for " +:+ path +:+ ":")
                   (message err)].
Proof.
  intros Hfail Hfb. rewrite (apiFetch_falls_back _ _ _ _ _ Hfail).
  apply attempt_fails_quiet in Hfail as [Hq _].
  unfold trace at 1; simpl. rewrite filter_app, Hq. simpl.
  rewrite filter_cons. simpl. by rewrite Hfb.
Qed.

(** The adapter on three answers of the server, with the mock regions as
    fallback: a success, an HTTP 500, and a timeout. *)
Example apiFetch_on_success :
  apiFetch false
    (λ _, Responded (mkResponse 200 (Returns ["live"]))) "/regions/"
    (ret ["mock"])
  = (Returns ["live"],
     [EvSetTimeout 8000; EvFetch (API_BASE +:+ "/regions/"); EvClearTimeout]).
Proof. reflexivity. Qed.

Example apiFetch_on_http_500 :
  apiFetch false
    (λ _, Responded (mkResponse 500 (Returns ["live"]))) "/regions/"
    (ret ["mock"])
  = (Returns ["mock"],
     [EvSetTimeout 8000; EvFetch (API_BASE +:+ "/regions/"); EvClearTimeout;
      EvConsoleWarn "[api] Falling back to mock data for /regions/:"
        "API error: 500"]).
Proof. reflexivity. Qed.

Example apiFetch_on_timeout :
  apiFetch false
    (λ _, Aborted (mkError "AbortError" "The operation was aborted."))
    "/regions/" (ret ["mock"])
  = (Returns ["mock"],
     [EvSetTimeout 8000; EvFetch (API_BASE +:+ "/regions/");
      EvConsoleWarn "[api] Falling back to mock data for /regions/:"
        "The operation was aborted."]).
Proof. reflexivity. Qed.

(** C1 (the defect).  A response with a success status whose body does not
    parse as JSON: [apiFetch] rejects with the parse error.  No warning is
    logged and the fallback producer is not run, whatever path and fallback
    producer are given: the rejection of the promise returned by
    [return res.json()] arises after the [try] block has been left. *)
Theorem apiFetch_parse_error_escapes
    {A} (path : string) (mockFallback : M A) (parse_error : JSError) :
  apiFetch false
    (λ _, Responded (mkResponse 200 (Throws parse_error))) path mockFallback
  = (Throws parse_error,
     [EvSetTimeout 8000; EvFetch (API_BASE +:+ path); EvClearTimeout]).
Proof. reflexivity. Qed.

(** C3. When the fallback producer throws, the adapter's promise rejects
    with that very error: after a failed network attempt (non-success
    status, network error, abort), and likewise when the force-mock flag is
    set.  So does [api.getAttraction] for a slug under which the mock
    [attractionDetails] object reads as nothing truthy (a slug that is
    neither an entry nor a name the object inherits, or one whose value is
    falsy): it rejects with the not-found error of its fallback
    producer. *)
Theorem apiFetch_fallback_failure_propagates
    {A} (net : string → FetchResult A) (path : string)
    (mockFallback : M A) (e : JSError) :
  result mockFallback = Throws e →
  (∀ err events,
     attempt_fails path net err events →
     result (apiFetch false net path mockFallback) = Throws e)
  ∧ result (apiFetch true net path mockFallback) = Throws e
  ∧ (∀ Detail (network : Network Detail) (MOCK_DATA : MockData Detail)
       (truthy : Detail → bool) (inherited : string → option Detail)
       (slug : string),
       (∀ detail,
          api.readDetail MOCK_DATA inherited slug = Some detail →
          truthy detail = false) →
       let not_found :=
         Error (html "Attraction '" +:+ slug
                +:+ html "' not found in mock data") in
       (∀ err events,
          attempt_fails ("/attractions/" +:+ slug +:+ "/")
            (detail_net network) err events →
          result (api.getAttraction false network MOCK_DATA truthy inherited
                    slug)
          = Throws not_found)
       ∧ result (api.getAttraction true network MOCK_DATA truthy inherited
                   slug)
         = Throws not_found).
Proof.
  intros Hfb. split_and!.
  - intros err events Hfail.
    by rewrite (apiFetch_falls_back _ _ _ _ _ Hfail).
  - by rewrite apiFetch_use_mock.
  - intros Detail network MOCK_DATA truthy inherited slug Hnone not_found.
    assert (Hmiss : api.attractionFallback MOCK_DATA truthy inherited slug
                    = throw not_found).
    { unfold api.attractionFallback. fold not_found.
      destruct (api.readDetail MOCK_DATA inherited slug) as [detail|];
        [ by rewrite (Hnone detail eq_refl) | done ]. }
    unfold api.getAttraction. split.
    + intros err events Hfail.
      by rewrite (apiFetch_falls_back _ _ _ _ _ Hfail), Hmiss.
    + by rewrite apiFetch_use_mock, Hmiss.
Qed.

Lemma apiFetch_fallback_failure_propagates_witness :
  let network : Network nat :=
    mkNetwork nat
      (λ _, NetworkError (mkError "TypeError" "Failed to fetch"))
      (λ _, NetworkError (mkError "TypeError" "Failed to fetch"))
      (λ _, Responded (mkResponse 500 (Returns 7%nat))) in
  let MOCK_DATA : MockData nat :=
    mkMockData nat [] [] {[ "zanzibar" := 3%nat; "draft" := 0%nat ]} in
  let truthy (n : nat) := negb (n =? 0)%nat in
  let inherited := inherited_by_literal (λ _, 1%nat) in
  let fallback := api.attractionFallback MOCK_DATA truthy inherited in
  let getAttraction use_mock :=
    api.getAttraction use_mock network MOCK_DATA truthy inherited in
  let path := "/attractions/serengeti/" in
  let e := Error (html "Attraction 'serengeti' not found in mock data") in
  let e' := Error (html "Attraction 'draft' not found in mock data") in
  result (fallback "serengeti") = Throws e
  ∧ attempt_fails path (detail_net network) (Error "API error: 500")
      (attempt_events path ++ [EvClearTimeout])
  ∧ result (apiFetch false (detail_net network) path (fallback "serengeti"))
    = Throws e
  ∧ result (apiFetch true (detail_net network) path (fallback "serengeti"))
    = Throws e
  ∧ result (getAttraction false "serengeti") = Throws e
  ∧ result (getAttraction true "serengeti") = Throws e
  ∧ result (getAttraction false "draft") = Throws e'
  ∧ result (getAttraction true "draft") = Throws e'.
Proof.
  intros network MOCK_DATA truthy inherited fallback getAttraction path e e'.
  assert (Hfb : result (fallback "serengeti") = Throws e) by reflexivity.
  assert (Hfail : ∀ path,
            attempt_fails path (detail_net network) (Error "API error: 500")
              (attempt_events path ++ [EvClearTimeout])).
  { intros p. apply (fails_status p (detail_net network)
                       (mkResponse 500 (Returns 7%nat))); reflexivity. }
  destruct (apiFetch_fallback_failure_propagates (detail_net network) path
              (fallback "serengeti") e Hfb)
    as (Hnet & Hmock & Hget).
  assert (Habsent : ∀ detail,
            api.readDetail MOCK_DATA inherited "serengeti" = Some detail →
            truthy detail = false)
    by (intros detail Hread; vm_compute in Hread; discriminate).
  assert (Hfalsy : ∀ detail,
            api.readDetail MOCK_DATA inherited "draft" = Some detail →
            truthy detail = false).
  { intros detail Hread. vm_compute in Hread.
    injection Hread as <-. reflexivity. }
  destruct (Hget nat network MOCK_DATA truthy inherited "serengeti" Habsent)
    as (Hget_net & Hget_mock).
  destruct (Hget nat network MOCK_DATA truthy inherited "draft" Hfalsy)
    as (Hdraft_net & Hdraft_mock).
  split_and!;
    [ exact Hfb | exact (Hfail _) | exact (Hnet _ _ (Hfail _)) | exact Hmock
    | exact (Hget_net _ _ (Hfail _)) | exact Hget_mock
    | exact (Hdraft_net _ _ (Hfail _)) | exact Hdraft_mock ].
Defined.

(** ** [toFixed]: four digits after the point *)

Module NumFacts.

Lemma digit_not_point c :
  Num.is_digit c = true → (Num.code c =? 46)%N = false.
Proof.
  unfold Num.is_digit, Num.digit_of, Num.code.
  destruct (_ && _) eqn:H; [|done]. intros _.
  apply andb_true_iff in H as [H _]. apply N.leb_le in H.
  apply N.eqb_neq. lia.
Qed.

Lemma digit_not_minus c :
  Num.is_digit c = true → (Num.code c =? 45)%N = false.
Proof.
  unfold Num.is_digit, Num.digit_of, Num.code.
  destruct (_ && _) eqn:H; [|done]. intros _.
  apply andb_true_iff in H as [H _]. apply N.leb_le in H.
  apply N.eqb_neq. lia.
Qed.

Lemma all_digits_app a b :
  Num.all_digits a = true → Num.all_digits b = true →
  Num.all_digits (a +:+ b) = true.
Proof.
  induction a as [|c a IH]; [done|]. rewrite StrFacts.app_cons. simpl.
  intros [-> Ha]%andb_true_iff Hb. by rewrite IH.
Qed.

Lemma all_digits_zeros k : Num.all_digits (Num.zeros k) = true.
Proof. induction k as [|k IH]; [done|]. simpl. exact IH. Qed.

Lemma length_zeros k : String.length (Num.zeros k) = k.
Proof. induction k as [|k IH]; [done|]. simpl. by rewrite IH. Qed.

Lemma all_digits_take n s :
  Num.all_digits s = true → Num.all_digits (Str.take n s) = true.
Proof.
  revert n. induction s as [|c s IH]; intros [|n]; simpl; try done.
  intros [-> Hs]%andb_true_iff. by apply IH.
Qed.

Lemma all_digits_drop n s :
  Num.all_digits s = true → Num.all_digits (Str.drop n s) = true.
Proof.
  revert n. induction s as [|c s IH]; intros [|n]; simpl; try done.
  intros [_ Hs]%andb_true_iff. by apply IH.
Qed.

Lemma length_take n s :
  (n ≤ String.length s)%nat → String.length (Str.take n s) = n.
Proof.
  revert n. induction s as [|c s IH]; intros [|n]; simpl; try done; [lia|].
  intros Hn. rewrite IH; [done | lia].
Qed.

Lemma length_drop n s :
  String.length (Str.drop n s) = (String.length s - n)%nat.
Proof.
  revert n. induction s as [|c s IH]; intros [|n]; simpl; try done.
Qed.

Lemma all_digits_uint d :
  Num.all_digits (NilEmpty.string_of_uint d) = true.
Proof. induction d; simpl; done. Qed.

(** The decimal expansion of a natural number: digits only, at least one. *)
Lemma of_Z_digits n :
  0 ≤ n →
  Num.all_digits (Str.of_Z n) = true ∧ (1 ≤ String.length (Str.of_Z n))%nat.
Proof.
  intros Hn. unfold Str.of_Z.
  assert (H : ∃ d, Z.to_int n = Decimal.Pos d) by
    (destruct n as [|p|p]; [by eexists | by eexists | lia]).
  destruct H as [d ->]. simpl.
  destruct d; simpl; (split; [apply all_digits_uint || done | lia]).
Qed.

Lemma four_after_point_intro a b seen :
  Num.all_digits a = true → Num.all_digits b = true →
  String.length b = 4%nat →
  seen = true ∨ (1 ≤ String.length a)%nat →
  Num.four_after_point seen (a +:+ "." +:+ b) = true.
Proof.
  revert seen. induction a as [|c a IH]; intros seen Ha Hb Hlen Hseen.
  - destruct Hseen as [-> | Hseen]; [|simpl in Hseen; lia].
    change ("" +:+ "." +:+ b) with (String "." b). simpl.
    rewrite Hlen, Hb. done.
  - rewrite StrFacts.app_cons. simpl in *.
    apply andb_true_iff in Ha as [Hc Ha].
    rewrite (digit_not_point _ Hc), Hc. simpl.
    apply IH; auto.
Qed.

Lemma fixed_digits_four n :
  0 ≤ n → Num.four_after_point false (Num.fixed_digits n 4) = true.
Proof.
  intros Hn. destruct (of_Z_digits n Hn) as [Hd Hl].
  unfold Num.fixed_digits.
  set (m := Str.of_Z n) in *.
  set (m' := if (String.length m <=? 4)%nat
             then Num.zeros (4 + 1 - String.length m) +:+ m else m).
  assert (Hd' : Num.all_digits m' = true).
  { unfold m'. destruct (_ <=? _)%nat; [|done].
    apply all_digits_app; [apply all_digits_zeros | done]. }
  assert (Hl' : (5 ≤ String.length m')%nat).
  { unfold m'. destruct (String.length m <=? 4)%nat eqn:Hk.
    - apply Nat.leb_le in Hk.
      rewrite StrFacts.app_length, length_zeros. lia.
    - apply Nat.leb_gt in Hk. lia. }
  apply four_after_point_intro.
  - by apply all_digits_take.
  - by apply all_digits_drop.
  - rewrite length_drop. lia.
  - right. rewrite length_take; lia.
Qed.

Lemma four_after_point_decimals t :
  Num.four_after_point false t = true → Num.four_decimals t = true.
Proof.
  destruct t as [|c t]; [done|]. unfold Num.four_decimals.
  destruct (Num.code c =? 45)%N eqn:Hc; [|done].
  simpl. destruct (Num.code c =? 46)%N eqn:Hp; [done|].
  destruct (Num.is_digit c) eqn:Hdig; [|done].
  by rewrite (digit_not_minus _ Hdig) in Hc.
Qed.

Lemma scaled_nearest_nonneg m e f : 0 ≤ Num.scaled_nearest m e f.
Proof.
  unfold Num.scaled_nearest. destruct (0 <=? e) eqn:He.
  - apply Z.leb_le in He.
    assert (0 < 2 ^ e) by (apply Z.pow_pos_nonneg; lia).
    assert (0 < 10 ^ Z.of_nat f) by (apply Z.pow_pos_nonneg; lia).
    nia.
  - apply Z.leb_gt in He.
    assert (0 < 2 ^ (- e)) by (apply Z.pow_pos_nonneg; lia).
    assert (0 < 2 ^ (- e + 1)) by (apply Z.pow_pos_nonneg; lia).
    assert (0 < 10 ^ Z.of_nat f) by (apply Z.pow_pos_nonneg; lia).
    apply Z.div_pos; nia.
Qed.

(** Every finite Number of magnitude below 10^21 prints with [toFixed(4)]
    as an optional minus sign, at least one digit, the point, and exactly
    four digits. *)
Lemma toFixed_four_decimals x :
  Num.in_fixed_range x = true → Num.four_decimals (Num.toFixed x 4) = true.
Proof.
  destruct x as [s | s | | s m e];
    unfold Num.in_fixed_range, Num.toFixed; [ | done | done | ].
  - intros _. apply four_after_point_decimals, fixed_digits_four. lia.
  - intros Hr. apply negb_true_iff in Hr. rewrite Hr.
    pose proof (fixed_digits_four _ (scaled_nearest_nonneg m e 4)) as H.
    destruct s.
    + change ("-" +:+ ?t) with (String "-" t). exact H.
    + rewrite StrFacts.app_nil_l. by apply four_after_point_decimals.
Qed.

(** [parseFloat] followed by [toFixed(4)] on a few texts: rounding of the
    binary64 value (not of the decimal text), padding, sign, and the forms
    without four decimals. *)
Example toFixed_samples :
  map (λ s, Num.toFixed (Num.parseFloat s) 4)
    ["-3.0674"; "37.3556"; "90"; "  12.5 km"; "0.00005"; "1.00005";
     "-0.00001"; "1234.56785"; ".5"; "1e3"; "1e21"; "-2.5e21"; "north";
     "Infinity"]
  = ["-3.0674"; "37.3556"; "90.0000"; "12.5000"; "0.0001"; "1.0001";
     "-0.0000"; "1234.5678"; "0.5000"; "1000.0000"; "1e+21"; "-2.5e+21";
     "NaN"; "Infinity"].
Proof. vm_compute. reflexivity. Qed.

End NumFacts.

(** ** The text of a count

    For the counts of every day the text that a template literal prints is
    the decimal expansion; the two part ways above [2^53]. *)

Lemma Integer_toString_decimal z :
  0 ≤ z ≤ 2000 → Integer.toString z = Str.of_Z z.
Proof.
  intros Hz.
  assert (Hall : forallb (λ n, String.eqb (Integer.toString (Z.of_nat n))
                                 (Str.of_Z (Z.of_nat n)))
                   (seq 0 2001) = true) by (vm_compute; reflexivity).
  rewrite forallb_forall in Hall.
  specialize (Hall (Z.to_nat z)). rewrite Z2Nat.id in Hall by lia.
  apply String.eqb_eq, Hall, in_seq. lia.
Qed.

Lemma Integer_toString_beyond :
  Integer.toString (2 ^ 53 + 1) = "9007199254740992"
  ∧ Integer.toString (2 ^ 60) = "1152921504606847000"
  ∧ Integer.toString (10 ^ 21) = "1e+21"
  ∧ Integer.toString (- (2 ^ 64)) = "-18446744073709552000".
Proof. by vm_compute. Qed.

(** ** The region section: where the interpolated values land *)

(** Walks to the [k]-th piece of a template and checks that the wanted
    text starts in its tail, runs over the [m] pieces that follow, and ends
    at the head of the piece after them. *)
Tactic Notation "find_in_template" integer(k) integer(m) :=
  cbv zeta;
  do k (apply StrFacts.occurs_in_skip);
  apply StrFacts.occurs_in_suffix; [ vm_compute; reflexivity | ];
  do m (apply StrFacts.starts_with_same);
  apply StrFacts.starts_with_prefix; vm_compute; reflexivity.

Section RegionSection.

Variables (region : Region.t) (attractions : list Attraction.t) (index : nat).

Lemma count_badge_occurs :
  Str.occurs_in
    (html "></i>
              "
     +:+ Integer.toString (Region.attraction_count region)
     +:+ html " Attraction"
     +:+ (if bool_decide (Region.attraction_count region ≠ 1) then "s"
          else "")
     +:+ html "
            </span>")
    (buildRegionSection region attractions index).
Proof. unfold buildRegionSection. find_in_template 18 3. Qed.

Lemma coordinates_occur :
  Str.occurs_in
    (html "></i>
              "
     +:+ Num.toFixed (Num.parseFloat (Region.latitude region)) 4
     +:+ html ", "
     +:+ Num.toFixed (Num.parseFloat (Region.longitude region)) 4
     +:+ html "
            </span>")
    (buildRegionSection region attractions index).
Proof. unfold buildRegionSection. find_in_template 24 3. Qed.

Lemma hero_image_occurs :
  Str.occurs_in
    (html "<img src='"
     +:+ or_else (Region.image region)
           "images/photo-1547036967-23d11aacaee0.jpg"
     +:+ html "'
               alt='Landscape of "
     +:+ Region.name region
     +:+ html " region'")
    (buildRegionSection region attractions index).
Proof. unfold buildRegionSection. find_in_template 8 3. Qed.

Lemma top_row_occurs :
  Str.occurs_in
    (html "<div class='flex flex-col "
     +:+ (if (index mod 2 =? 0)%nat then "lg:flex-row"
          else "lg:flex-row-reverse")
     +:+ html " gap-8 lg:gap-12 items-stretch mb-10'>")
    (buildRegionSection region attractions index).
Proof. unfold buildRegionSection. find_in_template 6 1. Qed.

End RegionSection.

Lemma card_image_occurs (attraction : Attraction.t) :
  Str.occurs_in
    (html "<img src='"
     +:+ or_else (Attraction.featured_image attraction)
           "images/photo-1547036967-23d11aacaee0.jpg"
     +:+ html "'
             alt='"
     +:+ Attraction.name attraction
     +:+ html "'")
    (buildAttractionCard attraction).
Proof. unfold buildAttractionCard. find_in_template 0 3. Qed.

Lemma even_mod2 (n : nat) : (n mod 2 =? 0)%nat = Nat.even n.
Proof.
  destruct (Nat.even n) eqn:He.
  - apply Nat.even_spec in He as [k ->]. apply Nat.eqb_eq.
    by rewrite Nat.mul_comm, Nat.Div0.mod_mul.
  - apply Nat.eqb_neq. intros Hm.
    assert (Nat.even n = true); [|congruence].
    apply Nat.even_spec. exists (n / 2)%nat.
    pose proof (Nat.div_mod_eq n 2). lia.
Qed.

(** The top row of a section: the row with its direction class, then the
    hero image, then the description panel, in this order in the markup. *)
Lemma top_row_markup (region : Region.t) (attractions : list Attraction.t)
    (index : nat) :
  Str.occurs_in
    (html "<div class='flex flex-col "
     +:+ (if (index mod 2 =? 0)%nat then "lg:flex-row"
          else "lg:flex-row-reverse")
     +:+ html " gap-8 lg:gap-12 items-stretch mb-10'>

        <!-- Region hero image — 1/3 width on desktop -->
        <div class='lg:w-1/3 shrink-0 rounded-2xl overflow-hidden shadow-md'>
          <img src='"
     +:+ or_else (Region.image region)
           "images/photo-1547036967-23d11aacaee0.jpg"
     +:+ html "'
               alt='Landscape of "
     +:+ Region.name region
     +:+ html " region'
               class='w-full h-full object-cover min-h-64 lg:min-h-0'
               loading='lazy' />
        </div>

        <!-- Description panel — 2/3 width on desktop -->
        <div class='flex flex-col justify-center flex-1'>")
    (buildRegionSection region attractions index).
Proof. unfold buildRegionSection. find_in_template 6 5. Qed.

(** ** The claims about the region section *)

(** C7. The attraction-count badge of the section is pluralized by the
    count: a count of 1 gives [1 Attraction]; every other integer count, 0
    included, gives the text of the count followed by [Attractions].  The
    text of the count is the one the template literal prints
    ([Integer.toString]): its decimal digits, as in [5 Attractions], and
    from [10^21] on the exponent form, as in [1e+21 Attractions]. *)
Theorem attraction_count_badge_pluralized
    (region : Region.t) (attractions : list Attraction.t) (index : nat) :
  let count := Region.attraction_count region in
  let section := buildRegionSection region attractions index in
  (count = 1 →
   Str.occurs_in
     (html "></i>
              1 Attraction
            </span>") section)
  ∧ (count ≠ 1 →
     Str.occurs_in
       (html "></i>
              " +:+ Integer.toString count +:+ html " Attractions
            </span>") section).
Proof.
  intros count section.
  pose proof (count_badge_occurs region attractions index) as H.
  fold count section in H. split; intros Hc.
  - rewrite Hc in H. exact H.
  - rewrite bool_decide_true in H by done. exact H.
Qed.

Lemma attraction_count_badge_pluralized_witness :
  let region n := Region.make "kilimanjaro" "Kilimanjaro" "" None
                    "-3.0674" "37.3556" n in
  Str.occurs_in
    (html "></i>
              1 Attraction
            </span>") (buildRegionSection (region 1) [] 0)
  ∧ Str.occurs_in
      (html "></i>
              5 Attractions
            </span>") (buildRegionSection (region 5) [] 0)
  ∧ Str.occurs_in
      (html "></i>
              0 Attractions
            </span>") (buildRegionSection (region 0) [] 0)
  ∧ Str.occurs_in
      (html "></i>
              1152921504606847000 Attractions
            </span>") (buildRegionSection (region (2 ^ 60)) [] 0)
  ∧ Str.occurs_in
      (html "></i>
              1e+21 Attractions
            </span>") (buildRegionSection (region (10 ^ 21)) [] 0).
Proof.
  intros region. split_and!.
  - apply (proj1 (attraction_count_badge_pluralized (region 1) [] 0)).
    reflexivity.
  - apply (proj2 (attraction_count_badge_pluralized (region 5) [] 0)).
    simpl. lia.
  - apply (proj2 (attraction_count_badge_pluralized (region 0) [] 0)).
    simpl. lia.
  - apply (proj2 (attraction_count_badge_pluralized (region (2 ^ 60)) [] 0)).
    simpl. lia.
  - apply (proj2 (attraction_count_badge_pluralized (region (10 ^ 21)) [] 0)).
    simpl. lia.
Defined.

(** C8. The layout of the top row alternates with the parity of the
    index and depends on nothing else: the row carries [lg:flex-row] for an
    even index and [lg:flex-row-reverse] for an odd one.  The markup always
    lists the hero image before the description panel, so the row presents
    the image first for an even index and the description first for an odd
    one. *)
Theorem layout_alternates_with_index_parity
    (region : Region.t) (attractions : list Attraction.t) (index : nat) :
  let direction :=
    if Nat.even index then "lg:flex-row" else "lg:flex-row-reverse" in
  Str.occurs_in
    (html "<div class='flex flex-col " +:+ direction
     +:+ html " gap-8 lg:gap-12 items-stretch mb-10'>

        <!-- Region hero image — 1/3 width on desktop -->
        <div class='lg:w-1/3 shrink-0 rounded-2xl overflow-hidden shadow-md'>
          <img src='"
     +:+ or_else (Region.image region)
           "images/photo-1547036967-23d11aacaee0.jpg"
     +:+ html "'
               alt='Landscape of "
     +:+ Region.name region
     +:+ html " region'
               class='w-full h-full object-cover min-h-64 lg:min-h-0'
               loading='lazy' />
        </div>

        <!-- Description panel — 2/3 width on desktop -->
        <div class='flex flex-col justify-center flex-1'>")
    (buildRegionSection region attractions index)
  ∧ presented_order direction
    = if Nat.even index then [HeroImage; DescriptionPanel]
      else [DescriptionPanel; HeroImage].
Proof.
  intros direction. split.
  - pose proof (top_row_markup region attractions index) as H.
    rewrite even_mod2 in H. exact H.
  - unfold direction. by destruct (Nat.even index).
Qed.

(** The sections at the indices 0 to 4: which of them carry the plain row
    direction, and which the reversed one. *)
Example layout_samples :
  let region := Region.make "kilimanjaro" "Kilimanjaro" "" None
                  "-3.0674" "37.3556" 5 in
  map (λ index,
         (Str.containsb (html "<div class='flex flex-col lg:flex-row gap-8")
            (buildRegionSection region [] index),
          Str.containsb
            (html "<div class='flex flex-col lg:flex-row-reverse gap-8")
            (buildRegionSection region [] index)))
      [0; 1; 2; 3; 4]%nat
  = [(true, false); (false, true); (true, false); (false, true);
     (true, false)].
Proof. vm_compute. reflexivity. Qed.

(** C9. A region without an image (absent, or the empty string) gets the
    placeholder image as its hero image, and this is the placeholder that
    the attraction card uses for an attraction without a featured image; a
    region with an image set gets that image, unchanged. *)
Theorem missing_image_uses_shared_placeholder
    (region : Region.t) (attractions : list Attraction.t) (index : nat)
    (attraction : Attraction.t) :
  let placeholder := "images/photo-1547036967-23d11aacaee0.jpg" in
  (Region.image region = None ∨ Region.image region = Some "" →
   Str.occurs_in
     (html "<img src='" +:+ placeholder +:+ html "'
               alt='Landscape of " +:+ Region.name region +:+ html " region'")
     (buildRegionSection region attractions index))
  ∧ (Attraction.featured_image attraction = None
     ∨ Attraction.featured_image attraction = Some "" →
     Str.occurs_in
       (html "<img src='" +:+ placeholder +:+ html "'
             alt='" +:+ Attraction.name attraction +:+ html "'")
       (buildAttractionCard attraction))
  ∧ (∀ src, src ≠ "" → Region.image region = Some src →
     Str.occurs_in
       (html "<img src='" +:+ src +:+ html "'
               alt='Landscape of " +:+ Region.name region +:+ html " region'")
       (buildRegionSection region attractions index)).
Proof.
  intros placeholder. split_and!.
  - intros Himg. pose proof (hero_image_occurs region attractions index) as H.
    by destruct Himg as [-> | ->] in H.
  - intros Himg. pose proof (card_image_occurs attraction) as H.
    by destruct Himg as [-> | ->] in H.
  - intros src Hsrc Himg.
    pose proof (hero_image_occurs region attractions index) as H.
    rewrite Himg in H. by destruct src.
Qed.

Lemma missing_image_uses_shared_placeholder_witness :
  let bare := Region.make "tanga" "Tanga" "" None "-5.07" "39.1" 2 in
  let pictured :=
    Region.make "tanga" "Tanga" "" (Some "images/tanga.jpg") "-5.07" "39.1" 2
  in
  let attraction :=
    Attraction.make "amboni" "Amboni Caves" "Tanga" (Some "") "easy" false in
  Str.occurs_in
    (html "<img src='images/photo-1547036967-23d11aacaee0.jpg'
               alt='Landscape of Tanga region'")
    (buildRegionSection bare [] 0)
  ∧ Str.occurs_in
      (html "<img src='images/photo-1547036967-23d11aacaee0.jpg'
             alt='Amboni Caves'")
      (buildAttractionCard attraction)
  ∧ Str.occurs_in
      (html "<img src='images/tanga.jpg'
               alt='Landscape of Tanga region'")
      (buildRegionSection pictured [] 0).
Proof.
  intros bare pictured attraction.
  destruct (missing_image_uses_shared_placeholder bare [] 0 attraction)
    as (Hbare & Hcard & _).
  destruct (missing_image_uses_shared_placeholder pictured [] 0 attraction)
    as (_ & _ & Hset).
  split_and!.
  - apply Hbare. by left.
  - apply Hcard. by right.
  - apply (Hset "images/tanga.jpg"); done.
Defined.

(** C6 (as amended).  For every region and section index: when the
    latitude and the longitude parse to finite Numbers of magnitude below
    10^21, the coordinate badge shows each with exactly four digits after
    the decimal point, as [latitude, longitude]. *)
Theorem coordinates_have_four_decimals
    (region : Region.t) (attractions : list Attraction.t) (index : nat) :
  let lat := Num.toFixed (Num.parseFloat (Region.latitude region)) 4 in
  let lng := Num.toFixed (Num.parseFloat (Region.longitude region)) 4 in
  Num.in_fixed_range (Num.parseFloat (Region.latitude region)) = true →
  Num.in_fixed_range (Num.parseFloat (Region.longitude region)) = true →
  Num.four_decimals lat = true
  ∧ Num.four_decimals lng = true
  ∧ Str.occurs_in
      (html "></i>
              " +:+ lat +:+ html ", " +:+ lng +:+ html "
            </span>")
      (buildRegionSection region attractions index).
Proof.
  intros lat lng Hlat Hlng. split_and!.
  - by apply NumFacts.toFixed_four_decimals.
  - by apply NumFacts.toFixed_four_decimals.
  - apply coordinates_occur.
Qed.

(** The example of the specification: Kilimanjaro at latitude -3.0674 and
    longitude 37.3556. *)
Lemma coordinates_have_four_decimals_witness :
  let region := Region.make "kilimanjaro" "Kilimanjaro" "" None
                  "-3.0674" "37.3556" 5 in
  Num.toFixed (Num.parseFloat (Region.latitude region)) 4 = "-3.0674"
  ∧ Num.toFixed (Num.parseFloat (Region.longitude region)) 4 = "37.3556"
  ∧ Num.four_decimals "-3.0674" = true
  ∧ Num.four_decimals "37.3556" = true
  ∧ Str.occurs_in
      (html "></i>
              -3.0674, 37.3556
            </span>")
      (buildRegionSection region [] 0).
Proof.
  intros region.
  destruct (coordinates_have_four_decimals region [] 0) as (Hlat & Hlng & H);
    [ vm_compute; reflexivity | vm_compute; reflexivity | ].
  assert (Elat : Num.toFixed (Num.parseFloat (Region.latitude region)) 4
                 = "-3.0674") by (vm_compute; reflexivity).
  assert (Elng : Num.toFixed (Num.parseFloat (Region.longitude region)) 4
                 = "37.3556") by (vm_compute; reflexivity).
  rewrite Elat in Hlat, H. rewrite Elng in Hlng, H.
  split_and!; [ exact Elat | exact Elng | exact Hlat | exact Hlng | exact H ].
Defined.

(** C6 as stated fails for a finite value of magnitude 10^21 or more: the
    latitude text [1e21] parses to the finite Number 10^21, which [toFixed]
    prints in exponent form, without a decimal point.  So it is not true
    that every finite latitude is shown with four digits after the point. *)
Lemma coordinates_exponent_form_counterexample :
  let region := Region.make "far" "Far" "" None "1e21" "37.3556" 5 in
  Num.is_finite (Num.parseFloat (Region.latitude region)) = true
  ∧ Num.is_finite (Num.parseFloat (Region.longitude region)) = true
  ∧ Num.toFixed (Num.parseFloat (Region.latitude region)) 4 = "1e+21"
  ∧ Num.four_decimals
      (Num.toFixed (Num.parseFloat (Region.latitude region)) 4) = false
  ∧ Str.occurs_in
      (html "></i>
              1e+21, 37.3556
            </span>")
      (buildRegionSection region [] 0)
  ∧ ¬ (∀ r : Region.t,
         Num.is_finite (Num.parseFloat (Region.latitude r)) = true →
         Num.is_finite (Num.parseFloat (Region.longitude r)) = true →
         Num.four_decimals
           (Num.toFixed (Num.parseFloat (Region.latitude r)) 4) = true
         ∧ Num.four_decimals
             (Num.toFixed (Num.parseFloat (Region.longitude r)) 4) = true).
Proof.
  intros region.
  assert (Elat : Num.toFixed (Num.parseFloat (Region.latitude region)) 4
                 = "1e+21") by (vm_compute; reflexivity).
  assert (Elng : Num.toFixed (Num.parseFloat (Region.longitude region)) 4
                 = "37.3556") by (vm_compute; reflexivity).
  assert (Flat : Num.is_finite (Num.parseFloat (Region.latitude region))
                 = true) by (vm_compute; reflexivity).
  assert (Flng : Num.is_finite (Num.parseFloat (Region.longitude region))
                 = true) by (vm_compute; reflexivity).
  split_and!.
  - exact Flat.
  - exact Flng.
  - exact Elat.
  - rewrite Elat. reflexivity.
  - pose proof (coordinates_occur region [] 0) as H.
    rewrite Elat, Elng in H. exact H.
  - intros Hall. destruct (Hall region Flat Flng) as [Hlat _].
    rewrite Elat in Hlat. discriminate Hlat.
Qed.

(** ** The regions page controller *)

Ltac run_controller :=
  cbv beta iota zeta
    delta [init loadContributors fetch await Promise_all2 try_catch
           mbind M_bind bind emit ret throw result trace fst snd
           api_getRegions api_getAttractions negb].

Section RegionsPage.

Variables (page : Page) (api : Api).
Hypothesis container_found :
  getElementById page None "regions-container" = true.



End RegionsPage.



(** ** The contributor loader *)

Section ContributorsPage.

Variables (page : Page) (net : string → FetchResult (list Contributor.t)).
Hypothesis grid_found :
  getElementById page None "contributors-grid" = true.

Lemma loadContributors_failure e :
  contributors_fetch_fails net e →
  writes_to "contributors-grid" (trace (loadContributors page net))
  = [contributors_failure_markup].
Proof.
  intros Hfail. run_controller. rewrite grid_found.
  fold contributors_url.
  destruct Hfail as [res Hnet Hok | e Hnet | e Hnet | res e Hnet Hok Hjson];
    rewrite Hnet; cbv beta iota; rewrite ?Hok; cbv beta iota;
    rewrite ?Hjson; cbv beta iota;
    by destruct (lucide_defined page).
Qed.

Lemma loadContributors_loaded res contributors :
  net contributors_url = Responded res → ok res = true →
  json res = Returns contributors →
  writes_to "contributors-grid" (trace (loadContributors page net))
  = [match contributors with
     | [] => contributors_empty_markup
     | _ :: _ => Str.join (map contributorCard contributors)
     end].
Proof.
  intros Hnet Hok Hjson. run_controller. rewrite grid_found.
  fold contributors_url. rewrite Hnet; cbv beta iota.
  rewrite Hok; cbv beta iota. rewrite Hjson; cbv beta iota.
  destruct contributors as [|c cs]; [reflexivity|].
  change (length (c :: cs) =? 0)%nat with false. cbv beta iota.
  by destruct (AOS_defined page).
Qed.

End ContributorsPage.

(** A contributor card links to the profile and shows the avatar. *)
Lemma contributorCard_avatar (c : Contributor.t) :
  Str.occurs_in
    (html "<img src='" +:+ Contributor.avatar_url c
     +:+ html "&s=80' alt='" +:+ Contributor.login c +:+ html "'")
    (contributorCard c).
Proof. unfold contributorCard. find_in_template 2 3. Qed.

Lemma cards_start (c : Contributor.t) (cs : list Contributor.t) :
  Str.take 9 (Str.join (map contributorCard (c :: cs))) = "
      <a".
Proof. reflexivity. Qed.

(** C5. With the grid present, the contributor loader writes one of three
    different pieces of markup: the cards, each with the avatar of its
    contributor, for a populated list; the empty-state message (Be the
    first!) for a successful fetch of zero contributors; and the message
    with the link to the contributors page on GitHub for any failure
    (non-success status, rejected fetch, body that does not parse).  The
    three are pairwise different. *)
Theorem contributors_three_outcomes
    (page : Page) (net : string → FetchResult (list Contributor.t)) :
  getElementById page None "contributors-grid" = true →
  let written :=
    writes_to "contributors-grid" (trace (loadContributors page net)) in
  (∀ res c cs,
     net contributors_url = Responded res → ok res = true →
     json res = Returns (c :: cs) →
     written = [Str.join (map contributorCard (c :: cs))])
  ∧ (∀ res,
       net contributors_url = Responded res → ok res = true →
       json res = Returns [] →
       written = [contributors_empty_markup])
  ∧ (∀ e, contributors_fetch_fails net e →
          written = [contributors_failure_markup])
  ∧ Str.occurs_in "Be the first!" contributors_empty_markup
  ∧ Str.occurs_in
      (html "<a href='https://github.com/" +:+ GITHUB_REPO
       +:+ html "/graphs/contributors'")
      contributors_failure_markup
  ∧ contributors_empty_markup ≠ contributors_failure_markup
  ∧ (∀ c cs,
       Str.join (map contributorCard (c :: cs)) ≠ contributors_empty_markup
       ∧ Str.join (map contributorCard (c :: cs))
         ≠ contributors_failure_markup)
  ∧ (∀ c,
       Str.occurs_in
         (html "<img src='" +:+ Contributor.avatar_url c
          +:+ html "&s=80' alt='" +:+ Contributor.login c +:+ html "'")
         (contributorCard c)).
Proof.
  intros Hgrid written.
  split_and!; [ | | | | | | | apply contributorCard_avatar ].
  - intros res c cs Hnet Hok Hjson.
    apply (loadContributors_loaded page net Hgrid res (c :: cs) Hnet Hok Hjson).
  - intros res Hnet Hok Hjson.
    apply (loadContributors_loaded page net Hgrid res [] Hnet Hok Hjson).
  - intros e. apply (loadContributors_failure page net Hgrid).
  - apply StrFacts.containsb_occurs. vm_compute. reflexivity.
  - apply StrFacts.containsb_occurs. vm_compute. reflexivity.
  - intros H. apply (f_equal (Str.take 1)) in H. vm_compute in H.
    discriminate H.
  - intros c cs. split; intros H; apply (f_equal (Str.take 9)) in H;
      rewrite cards_start in H; vm_compute in H; discriminate H.
Qed.

Lemma contributors_three_outcomes_witness :
  let page := mkPage (λ _ _, true) false false None in
  let bob := Contributor.make "bob" "https://avatars.example/u/1?v=4"
               "https://github.com/bob" 1 in
  let populated : string → FetchResult (list Contributor.t) :=
    λ _, Responded (mkResponse 200 (Returns [bob])) in
  let nobody : string → FetchResult (list Contributor.t) :=
    λ _, Responded (mkResponse 200 (Returns [])) in
  let limited : string → FetchResult (list Contributor.t) :=
    λ _, Responded (mkResponse 403 (Returns [])) in
  writes_to "contributors-grid" (trace (loadContributors page populated))
  = [Str.join (map contributorCard [bob])]
  ∧ writes_to "contributors-grid" (trace (loadContributors page nobody))
    = [contributors_empty_markup]
  ∧ writes_to "contributors-grid" (trace (loadContributors page limited))
    = [contributors_failure_markup].
Proof.
  intros page bob populated nobody limited.
  assert (Hgrid : getElementById page None "contributors-grid" = true)
    by reflexivity.
  split_and!.
  - apply (proj1 (contributors_three_outcomes page populated Hgrid)
             (mkResponse 200 (Returns [bob])) bob []); reflexivity.
  - apply (proj1 (proj2 (contributors_three_outcomes page nobody Hgrid))
             (mkResponse 200 (Returns []))); reflexivity.
  - apply (proj1 (proj2 (proj2
             (contributors_three_outcomes page limited Hgrid)))
             (Error "GitHub API: 403")).
    apply (cf_status limited (mkResponse 403 (Returns []))); reflexivity.
Defined.

(** C10. Without its container on the page, an entry point returns at once
    and does nothing: no event at all, so no fetch and no DOM write, and
    the [api] calls are not made. *)
Theorem missing_container_is_noop
    (page : Page) (api : Api)
    (net : string → FetchResult (list Contributor.t)) :
  (getElementById page None "regions-container" = false →
   init page api = (Returns tt, []))
  ∧ (getElementById page None "contributors-grid" = false →
     loadContributors page net = (Returns tt, [])).
Proof.
  split; intros H; run_controller; by rewrite H.
Qed.

Lemma missing_container_is_noop_witness :
  let page := mkPage (λ _ _, false) true true (Some "zanzibar") in
  let offline := mkError "TypeError" "Failed to fetch" in
  let network : Network nat :=
    mkNetwork nat (λ _, NetworkError offline) (λ _, NetworkError offline)
      (λ _, NetworkError offline) in
  let api := api_object USE_MOCK network (mkMockData nat [] [] ∅) in
  let net : string → FetchResult (list Contributor.t) :=
    λ _, Responded (mkResponse 200 (Returns [])) in
  init page api = (Returns tt, [])
  ∧ loadContributors page net = (Returns tt, []).
Proof.
  intros page offline network api net.
  destruct (missing_container_is_noop page api net) as [Hinit Hload].
  split; [apply Hinit | apply Hload]; reflexivity.
Defined.

(** * Further properties *)

(** ** The adapter *)

(** X1. A success status with a body that parses: the parsed body is the
    result, after one request to the base origin followed by the path, with
    the timer set and cleared and without a warning.  The fallback producer
    is not run: nothing of it shows in the result or in the trace. *)
Theorem apiFetch_success_ignores_fallback
    {A} (net : string → FetchResult A) (path : string)
    (mockFallback : M A) (res : Response A) (v : A) :
  net (API_BASE +:+ path) = Responded res →
  ok res = true →
  json res = Returns v →
  apiFetch false net path mockFallback
  = (Returns v,
     [EvSetTimeout 8000; EvFetch (API_BASE +:+ path); EvClearTimeout]).
Proof. intros Hnet Hok Hjson. by apply (apiFetch_success _ _ _ res). Qed.

Lemma apiFetch_success_ignores_fallback_witness :
  apiFetch false
    (λ _, Responded (mkResponse 204 (Returns [1; 2]%nat))) "/regions/"
    (emit (EvConsoleWarn "fallback" "was run");; throw (Error "unused"))
  = (Returns [1; 2]%nat,
     [EvSetTimeout 8000; EvFetch (API_BASE +:+ "/regions/"); EvClearTimeout]).
Proof.
  apply (apiFetch_success_ignores_fallback _ _ _
           (mkResponse 204 (Returns [1; 2]%nat))); reflexivity.
Defined.

(** X2. A non-success status, a network error or an abort: the result is
    the result of the fallback producer, one request was made, and the
    adapter logs one warning, with the path and the message of the error,
    before it runs the fallback producer. *)
Theorem apiFetch_recovers_with_one_warning
    {A} (net : string → FetchResult A) (path : string)
    (mockFallback : M A) (err : JSError) (events : list event) :
  attempt_fails path net err events →
  let run := apiFetch false net path mockFallback in
  result run = result mockFallback
  ∧ filter is_warning (trace run)
    = EvConsoleWarn ("[api] Falling back to mock data for " +:+ path +:+ ":")
        (message err)
      :: filter is_warning (trace mockFallback)
  ∧ filter is_fetch (trace run)
    = EvFetch (API_BASE +:+ path) :: filter is_fetch (trace mockFallback).
Proof.
  intros Hfail run. unfold run.
  rewrite (apiFetch_falls_back _ _ _ _ _ Hfail).
  split_and!; [done | |];
    destruct Hfail as [res _ _ | e _ | e _]; unfold trace; simpl;
    by rewrite ?filter_cons.
Qed.

Lemma apiFetch_recovers_with_one_warning_witness :
  let net : string → FetchResult (list nat) :=
    λ _, Responded (mkResponse 503 (Returns [])) in
  let run := apiFetch false net "/regions/" (ret [7%nat]) in
  result run = Returns [7%nat]
  ∧ filter is_warning (trace run)
    = [EvConsoleWarn "[api] Falling back to mock data for /regions/:"
         "API error: 503"]
  ∧ filter is_fetch (trace run) = [EvFetch (API_BASE +:+ "/regions/")].
Proof.
  intros net run.
  apply (apiFetch_recovers_with_one_warning net "/regions/" (ret [7%nat])
           (Error "API error: 503")
           (attempt_events "/regions/" ++ [EvClearTimeout])).
  apply (fails_status "/regions/" net (mkResponse 503 (Returns [])));
    reflexivity.
Defined.

(** X3. The adapter rejects in two ways only: the fallback producer threw
    that error, or (with the force-mock flag unset) a response with a
    success status had a body whose parsing was rejected with it. *)
Theorem apiFetch_rejection_sources
    {A} (use_mock : bool) (net : string → FetchResult A) (path : string)
    (mockFallback : M A) (e : JSError) :
  result (apiFetch use_mock net path mockFallback) = Throws e →
  result mockFallback = Throws e
  ∨ (use_mock = false
     ∧ ∃ res, net (API_BASE +:+ path) = Responded res
              ∧ ok res = true ∧ json res = Throws e).
Proof.
  destruct use_mock; [by left|].
  destruct (net (API_BASE +:+ path)) as [res | e' | e'] eqn:Hnet.
  - destruct (ok res) eqn:Hok.
    + destruct (json res) as [v | e'] eqn:Hjson.
      * by rewrite (apiFetch_success _ _ _ _ _ Hnet Hok Hjson).
      * rewrite (apiFetch_body_rejected _ _ _ _ _ Hnet Hok Hjson).
        intros [= ->]. right. split; [done|]. by exists res.
    + rewrite (apiFetch_falls_back _ _ _ _ _ (fails_status _ _ _ Hnet Hok)).
      by left.
  - rewrite (apiFetch_falls_back _ _ _ _ _ (fails_network _ _ _ Hnet)).
    by left.
  - rewrite (apiFetch_falls_back _ _ _ _ _ (fails_abort _ _ _ Hnet)).
    by left.
Qed.

Lemma apiFetch_rejection_sources_witness :
  let parse_error := mkError "SyntaxError" "Unexpected token <" in
  let net : string → FetchResult (list nat) :=
    λ _, Responded (mkResponse 200 (Throws parse_error)) in
  result (apiFetch false net "/regions/" (ret [])) = Throws parse_error
  ∧ (result (ret [] : M (list nat)) = Throws parse_error
     ∨ (false = false
        ∧ ∃ res, net (API_BASE +:+ "/regions/") = Responded res
                 ∧ ok res = true ∧ json res = Throws parse_error)).
Proof.
  intros parse_error net.
  assert (H : result (apiFetch false net "/regions/" (ret []))
              = Throws parse_error) by reflexivity.
  split; [exact H|].
  exact (apiFetch_rejection_sources false net "/regions/" (ret [])
           parse_error H).
Defined.

(** X4. The timer of a network attempt is set once, before the request,
    and it is cleared exactly when a response arrives: after a network
    error or an abort the adapter goes on to the warning without clearing
    it. *)
Theorem apiFetch_timer_cleared_on_response_only
    {A} (net : string → FetchResult A) (path : string) (mockFallback : M A) :
  let run := apiFetch false net path mockFallback in
  (∀ res,
     net (API_BASE +:+ path) = Responded res →
     trace run
     = [EvSetTimeout 8000; EvFetch (API_BASE +:+ path); EvClearTimeout]
       ++ (if ok res then []
           else fallback_warning path
                  (Error ("API error: " +:+ Str.of_Z (status res)))
                :: trace mockFallback))
  ∧ (∀ e,
       net (API_BASE +:+ path) = NetworkError e
       ∨ net (API_BASE +:+ path) = Aborted e →
       trace run
       = [EvSetTimeout 8000; EvFetch (API_BASE +:+ path)]
         ++ fallback_warning path e :: trace mockFallback).
Proof.
  intros run. unfold run. split.
  - intros res Hnet. destruct (ok res) eqn:Hok.
    + destruct (json res) as [v | e] eqn:Hjson.
      * by rewrite (apiFetch_success _ _ _ _ _ Hnet Hok Hjson).
      * by rewrite (apiFetch_body_rejected _ _ _ _ _ Hnet Hok Hjson).
    + by rewrite (apiFetch_falls_back _ _ _ _ _
                    (fails_status _ _ _ Hnet Hok)).
  - intros e [Hnet | Hnet].
    + by rewrite (apiFetch_falls_back _ _ _ _ _ (fails_network _ _ _ Hnet)).
    + by rewrite (apiFetch_falls_back _ _ _ _ _ (fails_abort _ _ _ Hnet)).
Qed.

Lemma apiFetch_timer_cleared_on_response_only_witness :
  let offline : string → FetchResult (list nat) :=
    λ _, NetworkError (mkError "TypeError" "Failed to fetch") in
  let slow : string → FetchResult (list nat) :=
    λ _, Aborted (mkError "AbortError" "The operation was aborted.") in
  let busy : string → FetchResult (list nat) :=
    λ _, Responded (mkResponse 503 (Returns [])) in
  filter is_timer (trace (apiFetch false offline "/regions/" (ret [])))
  = [EvSetTimeout 8000]
  ∧ filter is_timer (trace (apiFetch false slow "/regions/" (ret [])))
    = [EvSetTimeout 8000]
  ∧ filter is_timer (trace (apiFetch false busy "/regions/" (ret [])))
    = [EvSetTimeout 8000; EvClearTimeout].
Proof.
  intros offline slow busy. split_and!.
  - rewrite (proj2 (apiFetch_timer_cleared_on_response_only offline
                      "/regions/" (ret []))
               (mkError "TypeError" "Failed to fetch")); [reflexivity|].
    by left.
  - rewrite (proj2 (apiFetch_timer_cleared_on_response_only slow
                      "/regions/" (ret []))
               (mkError "AbortError" "The operation was aborted."));
      [reflexivity|]. by right.
  - rewrite (proj1 (apiFetch_timer_cleared_on_response_only busy
                      "/regions/" (ret []))
               (mkResponse 503 (Returns []))); reflexivity.
Defined.

(** ** The endpoints of the [api] object *)

(** X5. Every endpoint but [getAttraction] answers a failed network attempt
    (non-success status, network error, abort) with its mock value and never
    with a rejection: the mock regions, the mock attractions, the featured
    ones among them, the mock weather entries, and the empty mapping for
    the two grouping endpoints. *)
Theorem endpoints_fall_back_to_mock_values
    {Detail Current Forecast Seasonal Group : Type}
    (network : Network Detail) (MOCK_DATA : MockData Detail)
    (weather : WeatherMock Current Forecast Seasonal)
    (current_net : string → FetchResult Current)
    (forecast_net : string → FetchResult Forecast)
    (seasonal_net : string → FetchResult Seasonal)
    (groups_net : string → FetchResult (gmap string Group))
    (slug : string) :
  (∀ err events,
     attempt_fails "/regions/" (regions_net network) err events →
     result (api.getRegions false network MOCK_DATA)
     = Returns (regions MOCK_DATA))
  ∧ (∀ err events,
       attempt_fails "/attractions/" (attractions_net network) err events →
       result (api.getAttractions false network MOCK_DATA)
       = Returns (attractions MOCK_DATA))
  ∧ (∀ err events,
       attempt_fails "/attractions/featured/" (attractions_net network)
         err events →
       result (api.getFeaturedAttractions false network MOCK_DATA)
       = Returns (filter (λ a, Attraction.is_featured a = true)
                    (attractions MOCK_DATA)))
  ∧ (∀ err events,
       attempt_fails ("/weather/current/?attraction=" +:+ slug) current_net
         err events →
       result (api_weather.getWeather false weather current_net slug)
       = Returns (current_weather weather))
  ∧ (∀ err events,
       attempt_fails ("/weather/forecast/?attraction=" +:+ slug) forecast_net
         err events →
       result (api_weather.getWeatherForecast false weather forecast_net slug)
       = Returns (forecast weather))
  ∧ (∀ err events,
       attempt_fails ("/weather/seasonal/?attraction=" +:+ slug) seasonal_net
         err events →
       result (api_weather.getSeasonalPatterns false weather seasonal_net slug)
       = Returns (seasonal_patterns weather))
  ∧ (∀ err events,
       attempt_fails "/attractions/by_category/" groups_net err events →
       result (api_groups.getAttractionsByCategory false groups_net)
       = Returns ∅)
  ∧ (∀ err events,
       attempt_fails "/attractions/by_region/" groups_net err events →
       result (api_groups.getAttractionsByRegion false groups_net)
       = Returns ∅).
Proof.
  split_and!; intros err events Hfail;
    unfold api.getRegions, api.getAttractions, api.getFeaturedAttractions,
      api_weather.getWeather, api_weather.getWeatherForecast,
      api_weather.getSeasonalPatterns, api_groups.getAttractionsByCategory,
      api_groups.getAttractionsByRegion;
    by rewrite (apiFetch_falls_back _ _ _ _ _ Hfail).
Qed.

Lemma endpoints_fall_back_to_mock_values_witness :
  let network : Network nat := mkNetwork nat offline offline offline in
  let serengeti :=
    Attraction.make "serengeti" "Serengeti" "Mara" None "easy" true in
  let tarangire :=
    Attraction.make "tarangire" "Tarangire" "Manyara" None "easy" false in
  let MOCK_DATA : MockData nat :=
    mkMockData nat [] [serengeti; tarangire] ∅ in
  result (api.getFeaturedAttractions false network MOCK_DATA)
  = Returns [serengeti]
  ∧ result (api_weather.getWeather false (mkWeatherMock 21%nat 22%nat 23%nat)
              offline "serengeti") = Returns 21%nat
  ∧ result (api_groups.getAttractionsByRegion false
              (offline : string → FetchResult (gmap string nat)))
    = Returns ∅.
Proof.
  intros network serengeti tarangire MOCK_DATA.
  destruct (endpoints_fall_back_to_mock_values network MOCK_DATA
              (mkWeatherMock 21%nat 22%nat 23%nat)
              offline offline offline
              (offline : string → FetchResult (gmap string nat)) "serengeti")
    as (_ & _ & Hfeat & Hweather & _ & _ & _ & Hgroups).
  split_and!.
  - apply (Hfeat (mkError "TypeError" "Failed to fetch")
             (attempt_events "/attractions/featured/")).
    by apply fails_network.
  - apply (Hweather (mkError "TypeError" "Failed to fetch")
             (attempt_events "/weather/current/?attraction=serengeti")).
    by apply fails_network.
  - apply (Hgroups (mkError "TypeError" "Failed to fetch")
             (attempt_events "/attractions/by_region/")).
    by apply fails_network.
Defined.

(** X6. The fallback of the featured endpoint: after a failed attempt the
    result holds exactly the featured attractions of the mock dataset, in
    the order of the dataset. *)
Theorem getFeaturedAttractions_fallback_is_the_featured
    {Detail} (network : Network Detail) (MOCK_DATA : MockData Detail)
    (err : JSError) (events : list event) :
  attempt_fails "/attractions/featured/" (attractions_net network)
    err events →
  ∃ featured,
    result (api.getFeaturedAttractions false network MOCK_DATA)
    = Returns featured
    ∧ featured `sublist_of` attractions MOCK_DATA
    ∧ ∀ a, a ∈ featured
           ↔ a ∈ attractions MOCK_DATA ∧ Attraction.is_featured a = true.
Proof.
  intros Hfail. eexists. split_and!.
  - unfold api.getFeaturedAttractions.
    by rewrite (apiFetch_falls_back _ _ _ _ _ Hfail).
  - apply sublist_filter.
  - intros a. rewrite list_elem_of_filter. tauto.
Qed.

Lemma getFeaturedAttractions_fallback_is_the_featured_witness :
  let network : Network nat := mkNetwork nat offline offline offline in
  let serengeti :=
    Attraction.make "serengeti" "Serengeti" "Mara" None "easy" true in
  let tarangire :=
    Attraction.make "tarangire" "Tarangire" "Manyara" None "easy" false in
  let MOCK_DATA : MockData nat :=
    mkMockData nat [] [tarangire; serengeti] ∅ in
  ∃ featured,
    result (api.getFeaturedAttractions false network MOCK_DATA)
    = Returns featured
    ∧ featured `sublist_of` attractions MOCK_DATA
    ∧ ∀ a, a ∈ featured
           ↔ a ∈ attractions MOCK_DATA ∧ Attraction.is_featured a = true.
Proof.
  intros network serengeti tarangire MOCK_DATA.
  apply (getFeaturedAttractions_fallback_is_the_featured network MOCK_DATA
           (mkError "TypeError" "Failed to fetch")
           (attempt_events "/attractions/featured/")).
  by apply fails_network.
Defined.

(** X7. The detail endpoint reads the mock object by slug, as
    [attractionDetails[slug]] followed by the test [!detail] does.  With a
    value stored under a slug, a failed attempt for that slug (and the
    force-mock mode) gives this value when it is truthy, and the not-found
    error when it is falsy.  A name that is no entry but that the object
    inherits is answered with the inherited member, when that is truthy.
    Storing a value leaves the answers for every other slug as they
    were. *)
Theorem getAttraction_fallback_reads_the_mapping
    {Detail} (network : Network Detail)
    (rs : list Region.t) (ats : list Attraction.t)
    (details : gmap string Detail)
    (truthy : Detail → bool) (inherited : string → option Detail)
    (slug : string) (detail : Detail) :
  let MOCK_DATA := mkMockData Detail rs ats (<[slug := detail]> details) in
  let getAttraction use_mock data :=
    api.getAttraction use_mock network data truthy inherited in
  let fails name :=
    ∃ err events,
      attempt_fails ("/attractions/" +:+ name +:+ "/") (detail_net network)
        err events in
  let not_found :=
    Error (html "Attraction '" +:+ slug +:+ html "' not found in mock data") in
  (truthy detail = true →
   (fails slug → result (getAttraction false MOCK_DATA slug) = Returns detail)
   ∧ getAttraction true MOCK_DATA slug = ret detail)
  ∧ (truthy detail = false →
     (fails slug →
      result (getAttraction false MOCK_DATA slug) = Throws not_found)
     ∧ getAttraction true MOCK_DATA slug = throw not_found)
  ∧ (∀ name member,
       name ≠ slug → details !! name = None →
       inherited name = Some member → truthy member = true →
       (fails name →
        result (getAttraction false MOCK_DATA name) = Returns member)
       ∧ getAttraction true MOCK_DATA name = ret member)
  ∧ (∀ other use_mock,
       other ≠ slug →
       getAttraction use_mock MOCK_DATA other
       = getAttraction use_mock (mkMockData Detail rs ats details) other).
Proof.
  intros MOCK_DATA getAttraction fails not_found.
  assert (Hread : api.readDetail MOCK_DATA inherited slug = Some detail).
  { unfold api.readDetail, MOCK_DATA. simpl. by rewrite lookup_insert_eq. }
  assert (Hother : ∀ other, other ≠ slug →
            api.readDetail MOCK_DATA inherited other
            = api.readDetail (mkMockData Detail rs ats details) inherited
                other).
  { intros other Hne. unfold api.readDetail, MOCK_DATA. simpl.
    by rewrite lookup_insert_ne. }
  unfold getAttraction, api.getAttraction. split_and!.
  - intros Ht.
    assert (Hhit : api.attractionFallback MOCK_DATA truthy inherited slug
                   = ret detail)
      by (unfold api.attractionFallback; by rewrite Hread, Ht).
    split.
    + intros (err & events & Hfail).
      by rewrite (apiFetch_falls_back _ _ _ _ _ Hfail), Hhit.
    + by rewrite apiFetch_use_mock.
  - intros Hf.
    assert (Hmiss : api.attractionFallback MOCK_DATA truthy inherited slug
                    = throw not_found)
      by (unfold api.attractionFallback; by rewrite Hread, Hf).
    split.
    + intros (err & events & Hfail).
      by rewrite (apiFetch_falls_back _ _ _ _ _ Hfail), Hmiss.
    + by rewrite apiFetch_use_mock.
  - intros name member Hne Hnone Hinh Ht.
    assert (Hhit : api.attractionFallback MOCK_DATA truthy inherited name
                   = ret member).
    { unfold api.attractionFallback. rewrite (Hother name Hne).
      unfold api.readDetail. simpl. by rewrite Hnone, Hinh, Ht. }
    split.
    + intros (err & events & Hfail).
      by rewrite (apiFetch_falls_back _ _ _ _ _ Hfail), Hhit.
    + by rewrite apiFetch_use_mock.
  - intros other use_mock Hne. unfold api.attractionFallback.
    by rewrite (Hother other Hne).
Qed.

Lemma getAttraction_fallback_reads_the_mapping_witness :
  let network : Network nat :=
    mkNetwork nat
      (λ _, NetworkError (mkError "TypeError" "Failed to fetch"))
      (λ _, NetworkError (mkError "TypeError" "Failed to fetch"))
      (λ _, Responded (mkResponse 404 (Returns 0%nat))) in
  let truthy (n : nat) := negb (n =? 0)%nat in
  let inherited := inherited_by_literal (λ _, 1%nat) in
  let getAttraction details :=
    api.getAttraction false network (mkMockData nat [] [] details)
      truthy inherited in
  result (getAttraction (<["serengeti" := 42%nat]> ∅) "serengeti")
  = Returns 42%nat
  ∧ result (getAttraction (<["serengeti" := 0%nat]> ∅) "serengeti")
    = Throws (Error (html "Attraction 'serengeti' not found in mock data"))
  ∧ result (getAttraction (<["serengeti" := 42%nat]> ∅) "constructor")
    = Returns 1%nat
  ∧ result (getAttraction (<["serengeti" := 42%nat]> ∅) "ruaha")
    = Throws (Error (html "Attraction 'ruaha' not found in mock data")).
Proof.
  intros network truthy inherited getAttraction.
  assert (Hfails : ∀ name,
            ∃ err events,
              attempt_fails ("/attractions/" +:+ name +:+ "/")
                (detail_net network) err events).
  { intros name. exists (Error "API error: 404"),
      (attempt_events ("/attractions/" +:+ name +:+ "/") ++ [EvClearTimeout]).
    apply (fails_status _ (detail_net network)
             (mkResponse 404 (Returns 0%nat))); reflexivity. }
  destruct (getAttraction_fallback_reads_the_mapping network [] [] ∅
              truthy inherited "serengeti" 42%nat)
    as (Hhit & _ & Hinherited & Hother).
  destruct (getAttraction_fallback_reads_the_mapping network [] [] ∅
              truthy inherited "serengeti" 0%nat)
    as (_ & Hfalsy & _ & _).
  split_and!.
  - apply (proj1 (Hhit eq_refl)), Hfails.
  - apply (proj1 (Hfalsy eq_refl)), Hfails.
  - apply (proj1 (Hinherited "constructor" 1%nat ltac:(done) eq_refl
                    eq_refl eq_refl)), Hfails.
  - unfold getAttraction. rewrite (Hother "ruaha" false); [reflexivity | done].
Defined.

(** X8. With the [api] object of api.js, a call for the regions or for the
    attractions rejects only when a response with a success status carries
    a body whose parsing is rejected: the fallback producers of these two
    endpoints do not throw. *)
Theorem shipped_api_rejects_on_parse_error_only
    {Detail} (use_mock : bool) (network : Network Detail)
    (MOCK_DATA : MockData Detail) (e : JSError) :
  let api := api_object use_mock network MOCK_DATA in
  (result (api_getRegions api) = Throws e →
   use_mock = false
   ∧ ∃ res, regions_net network (API_BASE +:+ "/regions/") = Responded res
            ∧ ok res = true ∧ json res = Throws e)
  ∧ (result (api_getAttractions api) = Throws e →
     use_mock = false
     ∧ ∃ res,
         attractions_net network (API_BASE +:+ "/attractions/")
         = Responded res
         ∧ ok res = true ∧ json res = Throws e).
Proof.
  intros api. unfold api, api_object, api.getRegions, api.getAttractions.
  simpl. split; intros H.
  - destruct use_mock; [done|]. split; [done|].
    destruct (regions_net network (API_BASE +:+ "/regions/"))
      as [res | e' | e'] eqn:Hnet.
    + destruct (ok res) eqn:Hok.
      * destruct (json res) as [v | e'] eqn:Hjson.
        -- by rewrite (apiFetch_success _ _ _ _ _ Hnet Hok Hjson) in H.
        -- rewrite (apiFetch_body_rejected _ _ _ _ _ Hnet Hok Hjson) in H.
           injection H as ->. by exists res.
      * by rewrite (apiFetch_falls_back _ _ _ _ _
                      (fails_status _ _ _ Hnet Hok)) in H.
    + by rewrite (apiFetch_falls_back _ _ _ _ _
                    (fails_network _ _ _ Hnet)) in H.
    + by rewrite (apiFetch_falls_back _ _ _ _ _
                    (fails_abort _ _ _ Hnet)) in H.
  - destruct use_mock; [done|]. split; [done|].
    destruct (attractions_net network (API_BASE +:+ "/attractions/"))
      as [res | e' | e'] eqn:Hnet.
    + destruct (ok res) eqn:Hok.
      * destruct (json res) as [v | e'] eqn:Hjson.
        -- by rewrite (apiFetch_success _ _ _ _ _ Hnet Hok Hjson) in H.
        -- rewrite (apiFetch_body_rejected _ _ _ _ _ Hnet Hok Hjson) in H.
           injection H as ->. by exists res.
      * by rewrite (apiFetch_falls_back _ _ _ _ _
                      (fails_status _ _ _ Hnet Hok)) in H.
    + by rewrite (apiFetch_falls_back _ _ _ _ _
                    (fails_network _ _ _ Hnet)) in H.
    + by rewrite (apiFetch_falls_back _ _ _ _ _
                    (fails_abort _ _ _ Hnet)) in H.
Qed.

Lemma shipped_api_rejects_on_parse_error_only_witness :
  let parse_error := mkError "SyntaxError" "Unexpected token <" in
  let network : Network nat :=
    mkNetwork nat
      (λ _, Responded (mkResponse 200 (Throws parse_error)))
      offline offline in
  let api := api_object false network (mkMockData nat [] [] ∅) in
  result (api_getRegions api) = Throws parse_error
  ∧ ∃ res, regions_net network (API_BASE +:+ "/regions/") = Responded res
           ∧ ok res = true ∧ json res = Throws parse_error.
Proof.
  intros parse_error network api.
  assert (H : result (api_getRegions api) = Throws parse_error)
    by reflexivity.
  split; [exact H|].
  exact (proj2 (proj1 (shipped_api_rejects_on_parse_error_only false network
                         (mkMockData nat [] [] ∅) parse_error) H)).
Defined.

(** ** The preview selection *)

Lemma filter_all {A} (P : A → Prop) `{!∀ x, Decision (P x)} (l : list A) :
  Forall P l → filter P l = l.
Proof.
  induction 1 as [|x l Hx _ IH]; [done|].
  by rewrite filter_cons_True, IH.
Qed.

Lemma filter_none {A} (P : A → Prop) `{!∀ x, Decision (P x)} (l : list A) :
  Forall (λ x, ¬ P x) l → filter P l = [].
Proof.
  induction 1 as [|x l Hx _ IH]; [done|].
  by rewrite filter_cons_False, IH.
Qed.

(** X9. The preview holds the first attractions of the region, in the
    order of the list: as many as there are, up to three.  So a region with
    at most three attractions has all of them in its preview. *)
Theorem getAttractionsByRegion_first_matches
    (attractions : list Attraction.t) (regionName : string) :
  let of_region :=
    filter (λ a, Attraction.region_name a = regionName) attractions in
  let preview := getAttractionsByRegion attractions regionName in
  preview `prefix_of` of_region
  ∧ length preview = (length of_region `min` 3)%nat
  ∧ ((length of_region ≤ 3)%nat →
     ∀ a, a ∈ attractions → Attraction.region_name a = regionName →
          a ∈ preview).
Proof.
  intros of_region preview. unfold preview, getAttractionsByRegion.
  fold of_region. split_and!.
  - apply prefix_take.
  - rewrite length_take. lia.
  - intros Hle a Ha Hr. rewrite take_ge by done.
    apply list_elem_of_filter. done.
Qed.

Lemma getAttractionsByRegion_first_matches_witness :
  let at_ slug region :=
    Attraction.make slug slug region None "easy" false in
  let attractions :=
    [at_ "a" "Arusha"; at_ "b" "Mara"; at_ "c" "Arusha"; at_ "d" "Arusha";
     at_ "e" "Arusha"] in
  getAttractionsByRegion attractions "Arusha"
  = [at_ "a" "Arusha"; at_ "c" "Arusha"; at_ "d" "Arusha"]
  ∧ at_ "b" "Mara" ∈ getAttractionsByRegion attractions "Mara".
Proof.
  intros at_ attractions. split; [reflexivity|].
  destruct (getAttractionsByRegion_first_matches attractions "Mara")
    as (_ & _ & Hall).
  apply Hall; [simpl; lia | | reflexivity].
  apply list_elem_of_In. simpl. tauto.
Defined.

(** X10. Selecting again from a preview changes nothing for the same
    region and leaves nothing for any other region. *)
Theorem getAttractionsByRegion_again
    (attractions : list Attraction.t) (regionName other : string) :
  let preview := getAttractionsByRegion attractions regionName in
  getAttractionsByRegion preview regionName = preview
  ∧ (other ≠ regionName → getAttractionsByRegion preview other = []).
Proof.
  intros preview.
  pose proof (getAttractionsByRegion_region attractions regionName) as Hall.
  pose proof (getAttractionsByRegion_length attractions regionName) as Hlen.
  fold preview in Hall, Hlen. split.
  - unfold getAttractionsByRegion at 1.
    rewrite filter_all by done. by apply take_ge.
  - intros Hne. unfold getAttractionsByRegion at 1.
    rewrite filter_none; [done|].
    eapply Forall_impl; [exact Hall|]. simpl. intros a -> Heq. by apply Hne.
Qed.

Lemma getAttractionsByRegion_again_witness :
  let at_ slug region :=
    Attraction.make slug slug region None "easy" false in
  let attractions := [at_ "a" "Arusha"; at_ "b" "Mara"] in
  getAttractionsByRegion (getAttractionsByRegion attractions "Arusha") "Mara"
  = [].
Proof.
  intros at_ attractions.
  apply (proj2 (getAttractionsByRegion_again attractions "Arusha" "Mara")).
  done.
Defined.

(** ** [encodeURIComponent] *)

Lemma unreserved_not_percent c : unreserved c = true → Ascii.eqb c "%" = false.
Proof.
  destruct c as [[] [] [] [] [] [] [] []]; vm_compute; congruence.
Qed.

Lemma hex_digit_unreserved c :
  unreserved (hex_digit (N_of_ascii c / 16)) = true
  ∧ unreserved (hex_digit (N_of_ascii c mod 16)) = true.
Proof. destruct c as [[] [] [] [] [] [] [] []]; vm_compute; done. Qed.

Lemma unhex_hex_digit c :
  ascii_of_N (16 * unhex (hex_digit (N_of_ascii c / 16))
              + unhex (hex_digit (N_of_ascii c mod 16))) = c.
Proof. destruct c as [[] [] [] [] [] [] [] []]; vm_compute; done. Qed.

Lemma percent_decode_encode (s : string) :
  percent_decode (encodeURIComponent s) = s.
Proof.
  induction s as [|c s IH]; [done|]. cbn [encodeURIComponent].
  destruct (unreserved c) eqn:Hc.
  - cbn [percent_decode]. by rewrite (unreserved_not_percent _ Hc), IH.
  - cbn [percent_decode]. change (Ascii.eqb "%" "%") with true. cbv iota.
    by rewrite unhex_hex_digit, IH.
Qed.

(** X11. The encoded region name that the section puts into its link is
    made of unreserved characters and percent signs only, whatever the name
    holds: no quote, ampersand, space or angle bracket is left in it.  A
    name of unreserved characters only is left as it is. *)
Theorem encodeURIComponent_is_url_safe (s : string) :
  all_chars url_safe (encodeURIComponent s) = true
  ∧ all_chars (λ c, negb (Ascii.eqb c Str.dquote)
                    && negb (Ascii.eqb c "&") && negb (Ascii.eqb c " ")
                    && negb (Ascii.eqb c "<") && negb (Ascii.eqb c ">"))
      (encodeURIComponent s) = true
  ∧ (all_chars unreserved s = true → encodeURIComponent s = s).
Proof.
  split_and!.
  - induction s as [|c s IH]; [done|]. cbn [encodeURIComponent].
    destruct (unreserved c) eqn:Hc; cbn [all_chars]; rewrite IH.
    + unfold url_safe. by rewrite Hc.
    + destruct (hex_digit_unreserved c) as [H1 H2].
      unfold url_safe. by rewrite H1, H2.
  - induction s as [|c s IH]; [done|]. cbn [encodeURIComponent].
    destruct (unreserved c) eqn:Hc; cbn [all_chars]; rewrite IH.
    + revert Hc. destruct c as [[] [] [] [] [] [] [] []]; vm_compute; done.
    + clear. destruct c as [[] [] [] [] [] [] [] []]; vm_compute; done.
  - induction s as [|c s IH]; [done|]. cbn [encodeURIComponent all_chars].
    intros [Hc Hs]%andb_true_iff. by rewrite Hc, IH.
Qed.

Lemma encodeURIComponent_is_url_safe_witness :
  encodeURIComponent "Kilimanjaro" = "Kilimanjaro"
  ∧ encodeURIComponent "Dar es Salaam & <Pwani>"
    = "Dar%20es%20Salaam%20%26%20%3CPwani%3E".
Proof.
  split.
  - apply (proj2 (proj2 (encodeURIComponent_is_url_safe "Kilimanjaro"))).
    reflexivity.
  - reflexivity.
Defined.

(** X12. Different region names give different encoded names in the link:
    the name is read back from its encoding by undoing the escapes. *)
Theorem encodeURIComponent_injective (a b : string) :
  percent_decode (encodeURIComponent a) = a
  ∧ (a ≠ b → encodeURIComponent a ≠ encodeURIComponent b).
Proof.
  split; [apply percent_decode_encode|].
  intros Hne H. apply Hne. apply (f_equal percent_decode) in H.
  by rewrite !percent_decode_encode in H.
Qed.

Lemma encodeURIComponent_injective_witness :
  encodeURIComponent "Lake Zone" = "Lake%20Zone"
  ∧ encodeURIComponent "Lake%20Zone" = "Lake%2520Zone"
  ∧ encodeURIComponent "Lake Zone" ≠ encodeURIComponent "Lake%20Zone".
Proof.
  split_and!; [reflexivity | reflexivity |].
  apply (proj2 (encodeURIComponent_injective "Lake Zone" "Lake%20Zone")).
  discriminate.
Defined.

(** ** The region section and the attraction card *)

(** As [find_in_template], for a text that ends in the last piece. *)
Tactic Notation "find_at_template_end" integer(k) integer(m) :=
  cbv zeta;
  do k (apply StrFacts.occurs_in_skip);
  apply StrFacts.occurs_in_suffix; [ vm_compute; reflexivity | ];
  do m (apply StrFacts.starts_with_same);
  apply StrFacts.starts_with_prefix_end; vm_compute; reflexivity.

(** X13. The section is anchored by the slug of its region, and it is
    labelled by its own heading: the [aria-labelledby] of the section is
    the [id] of the heading that holds the name of the region. *)
Theorem section_anchor_and_label
    (region : Region.t) (attractions : list Attraction.t) (index : nat) :
  Str.occurs_in
    (html "<section id='region-" +:+ Region.slug region +:+ html "'
             class='scroll-mt-20'
             data-aos='fade-up'
             aria-labelledby='region-title-" +:+ Region.slug region
     +:+ html "'>")
    (buildRegionSection region attractions index)
  ∧ Str.occurs_in
      (html "<h2 id='region-title-" +:+ Region.slug region +:+ html "'
              class='font-display text-4xl sm:text-5xl font-bold text-tz-dark mb-4 leading-tight'>
            " +:+ Region.name region +:+ html "
          </h2>")
      (buildRegionSection region attractions index).
Proof.
  split; unfold buildRegionSection;
    [ find_in_template 2 3 | find_in_template 12 3 ].
Qed.

(** X14. The call-to-action link of the section leads to the attractions
    page filtered by the region: the [region] parameter of its address is
    the encoded name of the region. *)
Theorem section_links_to_filtered_attractions
    (region : Region.t) (attractions : list Attraction.t) (index : nat) :
  Str.occurs_in
    (html "<a href='attractions.html?region="
     +:+ encodeURIComponent (Region.name region) +:+ html "'")
    (buildRegionSection region attractions index).
Proof. unfold buildRegionSection. find_in_template 28 1. Qed.

(** X15. The preview grid of the section holds, between its opening and
    its closing tag, the cards of the given attractions, one after the
    other in the order given; for a region without attractions it holds the
    note that none are listed yet, and no card. *)
Theorem section_preview_grid
    (region : Region.t) (attractions : list Attraction.t) (index : nat) :
  Str.occurs_in
    (html "aria-label='Attractions preview for " +:+ Region.name region
     +:+ html "'>
          "
     +:+ match attractions with
         | [] => html "<p class='col-span-full text-tz-muted text-sm italic'>No attractions listed yet.</p>"
         | _ :: _ => Str.join (map buildAttractionCard attractions)
         end
     +:+ html "
        </div>")
    (buildRegionSection region attractions index).
Proof.
  unfold buildRegionSection.
  destruct attractions as [|a l]; find_at_template_end 32 3.
Qed.

(** X16. The card of an attraction shows the badge of its difficulty
    level, whose class is [badge-] followed by the level, and it links to
    the detail page of the attraction by the slug, with the name of the
    attraction as the label of the link. *)
Theorem card_badge_and_detail_link (attraction : Attraction.t) :
  Str.occurs_in
    (html "<div class='absolute bottom-2 left-2'>
          <span class='badge-" +:+ Attraction.difficulty_level attraction
     +:+ html " text-xs font-semibold px-2 py-0.5 rounded-full capitalize'>"
     +:+ Attraction.difficulty_level attraction +:+ html "</span>
        </div>")
    (buildAttractionCard attraction)
  ∧ Str.occurs_in
      (html "<a href='attraction.html?slug=" +:+ Attraction.slug attraction
       +:+ html "'
           class='shrink-0 text-tz-forest hover:text-tz-forest/70 transition-colors'
           aria-label='View details for " +:+ Attraction.name attraction
       +:+ html "'>")
      (buildAttractionCard attraction).
Proof.
  split.
  - assert (H : Str.occurs_in
                  (html "<div class='absolute bottom-2 left-2'>
          "
                   +:+ difficultyBadge (Attraction.difficulty_level attraction)
                   +:+ html "
        </div>")
                  (buildAttractionCard attraction))
      by (unfold buildAttractionCard; find_in_template 4 1).
    unfold difficultyBadge in H. rewrite !StrFacts.app_assoc in H.
    exact H.
  - unfold buildAttractionCard. find_at_template_end 8 3.
Qed.

(** X29. The card of an attraction with a featured image shows that image,
    unchanged, with the name of the attraction as its alternative text. *)
Theorem card_shows_featured_image (attraction : Attraction.t) (src : string) :
  src ≠ "" →
  Attraction.featured_image attraction = Some src →
  Str.occurs_in
    (html "<img src='" +:+ src +:+ html "'
             alt='" +:+ Attraction.name attraction +:+ html "'")
    (buildAttractionCard attraction).
Proof.
  intros Hsrc Himg. pose proof (card_image_occurs attraction) as H.
  rewrite Himg in H. by destruct src.
Qed.

Lemma card_shows_featured_image_witness :
  let ngorongoro :=
    Attraction.make "ngorongoro" "Ngorongoro Crater" "Arusha"
      (Some "images/crater.jpg") "moderate" true in
  Str.occurs_in
    (html "<img src='images/crater.jpg'
             alt='Ngorongoro Crater'")
    (buildAttractionCard ngorongoro).
Proof.
  intros ngorongoro.
  apply (card_shows_featured_image ngorongoro "images/crater.jpg");
    [discriminate | reflexivity].
Defined.

(** X30. The coordinates are shown without a check: for a latitude text that
    is empty or holds white space only, the badge of the section shows
    [NaN] in the place of the latitude. *)
Theorem blank_latitude_shows_NaN
    (region : Region.t) (attractions : list Attraction.t) (index : nat) :
  Num.trim_start (Region.latitude region) = "" →
  Str.occurs_in
    (html "></i>
              NaN, "
     +:+ Num.toFixed (Num.parseFloat (Region.longitude region)) 4
     +:+ html "
            </span>")
    (buildRegionSection region attractions index).
Proof.
  intros Hblank. pose proof (coordinates_occur region attractions index) as H.
  unfold Num.parseFloat at 1 in H. rewrite Hblank in H.
  cbn [Num.toFixed] in H. exact H.
Qed.

Lemma blank_latitude_shows_NaN_witness :
  let region := Region.make "pemba" "Pemba" "" None "  " "39.75" 2 in
  Str.occurs_in
    (html "></i>
              NaN, 39.7500
            </span>")
    (buildRegionSection region [] 0).
Proof.
  intros region.
  pose proof (blank_latitude_shows_NaN region [] 0 eq_refl) as H.
  assert (E : Num.toFixed (Num.parseFloat (Region.longitude region)) 4
              = "39.7500") by (vm_compute; reflexivity).
  rewrite E in H. exact H.
Defined.

(** ** The bulk markup of the regions page *)

Lemma join_app (l1 l2 : list string) :
  Str.join (l1 ++ l2) = Str.join l1 +:+ Str.join l2.
Proof.
  induction l1 as [|s l1 IH]; [done|]. simpl.
  by rewrite IH, StrFacts.app_assoc.
Qed.

Lemma occurs_in_join (l : list string) (i : nat) (s : string) :
  l !! i = Some s → Str.occurs_in s (Str.join l).
Proof.
  intros Hi. rewrite <- (take_drop_middle l i s Hi), join_app. simpl.
  by eexists _, _.
Qed.

Lemma occurs_in_trans (a b c : string) :
  Str.occurs_in a b → Str.occurs_in b c → Str.occurs_in a c.
Proof.
  intros (p1 & q1 & ->) (p2 & q2 & ->).
  exists (p2 +:+ p1), (q1 +:+ q2). by rewrite !StrFacts.app_assoc.
Qed.

(** ** The effects of the regions page controller *)

Lemma init_success_trace_exact
    (page : Page) (api : Api)
    (regions : list Region.t) (attractions : list Attraction.t) :
  getElementById page None "regions-container" = true →
  result (api_getRegions api) = Returns regions →
  result (api_getAttractions api) = Returns attractions →
  init page api
  = (Returns tt,
     (trace (api_getRegions api) ++ trace (api_getAttractions api))
     ++ [EvInnerHTML "regions-container" (regions_markup regions attractions)]
     ++ (if lucide_defined page then [EvCreateIcons] else [])
     ++ (if AOS_defined page then [EvAosRefresh] else [])
     ++ match highlight page with
        | Some (String c h) =>
            if getElementById page
                 (Some (regions_markup regions attractions))
                 ("region-" +:+ String c h)
            then [EvSetTimeout 150;
                  EvScrollIntoView ("region-" +:+ String c h)]
            else []
        | Some EmptyString | None => []
        end).
Proof.
  intros Hc HR HA.
  destruct api as [[rR tR] [rA tA]]. simpl in HR, HA. subst rR rA.
  run_controller. rewrite Hc.
  fold (regions_markup regions attractions).
  destruct (lucide_defined page), (AOS_defined page),
    (highlight page) as [[|c h]|];
    try destruct (getElementById page (Some _) _); reflexivity.
Qed.

Lemma init_writes_bulk_markup
    (page : Page) (api : Api)
    (regions : list Region.t) (attractions : list Attraction.t) :
  getElementById page None "regions-container" = true →
  result (api_getRegions api) = Returns regions →
  result (api_getAttractions api) = Returns attractions →
  EvInnerHTML "regions-container" (regions_markup regions attractions)
  ∈ trace (init page api).
Proof.
  intros Hc HR HA.
  rewrite (init_success_trace_exact page api regions attractions Hc HR HA).
  unfold trace at 1. cbn [snd]. apply elem_of_app. right. by left.
Qed.

(** X17. On a successful load the markup written into the container holds
    the section of every region of the list, built with the position of the
    region in the list and with the preview selected for the name of the
    region; for an empty list of regions the container is written the
    empty string. *)
Theorem init_writes_each_section
    (page : Page) (api : Api)
    (regions : list Region.t) (attractions : list Attraction.t) :
  getElementById page None "regions-container" = true →
  result (api_getRegions api) = Returns regions →
  result (api_getAttractions api) = Returns attractions →
  ∃ markup,
    EvInnerHTML "regions-container" markup ∈ trace (init page api)
    ∧ (∀ i region,
         regions !! i = Some region →
         Str.occurs_in
           (buildRegionSection region
              (getAttractionsByRegion attractions (Region.name region)) i)
           markup)
    ∧ (regions = [] → markup = "").
Proof.
  intros Hc HR HA. exists (regions_markup regions attractions). split_and!.
  - by apply init_writes_bulk_markup.
  - intros i region Hi. apply (occurs_in_join _ i). unfold regions_markup.
    by rewrite list_lookup_imap, Hi.
  - by intros ->.
Qed.

Lemma init_writes_each_section_witness :
  let page := mkPage (λ _ _, true) false false None in
  let arusha := Region.make "arusha" "Arusha" "" None "-3.37" "36.68" 1 in
  let mara := Region.make "mara" "Mara" "" None "-1.75" "34.17" 0 in
  let meru := Attraction.make "meru" "Mount Meru" "Arusha" None "hard" true in
  let api := mkApi (ret [arusha; mara]) (ret [meru]) in
  ∃ markup,
    EvInnerHTML "regions-container" markup ∈ trace (init page api)
    ∧ Str.occurs_in (buildRegionSection arusha [meru] 0) markup
    ∧ Str.occurs_in (buildRegionSection mara [] 1) markup.
Proof.
  intros page arusha mara meru api.
  destruct (init_writes_each_section page api [arusha; mara] [meru]
              eq_refl eq_refl eq_refl) as (markup & Hw & Hsec & _).
  exists markup. split_and!; [exact Hw | |].
  - apply (Hsec 0%nat arusha eq_refl).
  - apply (Hsec 1%nat mara eq_refl).
Defined.

(** X18. The anchor that the deep link looks for: on a successful load the
    markup written holds, for every region of the list, a section whose
    [id] is [region-] followed by the slug of the region, which is the [id]
    that [init] asks the document for when the highlight parameter is this
    slug. *)
Theorem init_writes_each_anchor
    (page : Page) (api : Api)
    (regions : list Region.t) (attractions : list Attraction.t) :
  getElementById page None "regions-container" = true →
  result (api_getRegions api) = Returns regions →
  result (api_getAttractions api) = Returns attractions →
  ∃ markup,
    EvInnerHTML "regions-container" markup ∈ trace (init page api)
    ∧ ∀ i region,
        regions !! i = Some region →
        Str.occurs_in
          (html "<section id='" +:+ ("region-" +:+ Region.slug region)
           +:+ html "'")
          markup.
Proof.
  intros Hc HR HA. exists (regions_markup regions attractions).
  split; [by apply init_writes_bulk_markup|].
  intros i region Hi.
  eapply occurs_in_trans;
    [| apply (occurs_in_join _ i); unfold regions_markup;
       by rewrite list_lookup_imap, Hi ].
  cbv beta.
  change (Str.occurs_in
            (html "<section id='region-" +:+ Region.slug region +:+ html "'")
            (buildRegionSection region
               (getAttractionsByRegion attractions (Region.name region)) i)).
  unfold buildRegionSection. find_in_template 2 1.
Qed.

Lemma init_writes_each_anchor_witness :
  let page := mkPage (λ _ _, true) false false (Some "zanzibar") in
  let arusha := Region.make "arusha" "Arusha" "" None "-3.37" "36.68" 1 in
  let zanzibar :=
    Region.make "zanzibar" "Zanzibar" "" None "-6.16" "39.19" 4 in
  let api := mkApi (ret [arusha; zanzibar]) (ret []) in
  ∃ markup,
    EvInnerHTML "regions-container" markup ∈ trace (init page api)
    ∧ Str.occurs_in (html "<section id='region-zanzibar'") markup.
Proof.
  intros page arusha zanzibar api.
  destruct (init_writes_each_anchor page api [arusha; zanzibar] []
              eq_refl eq_refl eq_refl) as (markup & Hw & Hanchor).
  exists markup. split; [exact Hw|].
  apply (Hanchor 1%nat zanzibar eq_refl).
Defined.

(** X19. What a successful load does, in order, after the two [api] calls:
    one write of the bulk markup; then the icons are created and the
    animations refreshed, each if its library is on the page; then, only
    for a non-empty highlight parameter whose anchor the document has after
    the write, the scroll to that anchor is set for 150 ms later.  Nothing
    is logged. *)
Theorem init_success_effects
    (page : Page) (api : Api)
    (regions : list Region.t) (attractions : list Attraction.t) :
  getElementById page None "regions-container" = true →
  result (api_getRegions api) = Returns regions →
  result (api_getAttractions api) = Returns attractions →
  let markup := regions_markup regions attractions in
  init page api
  = (Returns tt,
     (trace (api_getRegions api) ++ trace (api_getAttractions api))
     ++ [EvInnerHTML "regions-container" markup]
     ++ (if lucide_defined page then [EvCreateIcons] else [])
     ++ (if AOS_defined page then [EvAosRefresh] else [])
     ++ match highlight page with
        | Some (String c h) =>
            if getElementById page (Some markup) ("region-" +:+ String c h)
            then [EvSetTimeout 150;
                  EvScrollIntoView ("region-" +:+ String c h)]
            else []
        | Some EmptyString | None => []
        end).
Proof. intros Hc HR HA markup. by apply init_success_trace_exact. Qed.

Lemma init_success_effects_witness :
  let page :=
    mkPage (λ written id,
              match written with
              | None => String.eqb id "regions-container"
              | Some markup =>
                  Str.containsb (html "id='" +:+ id +:+ html "'") markup
              end)
           true false (Some "mara") in
  let mara := Region.make "mara" "Mara" "" None "-1.75" "34.17" 0 in
  let api := mkApi (ret [mara]) (ret []) in
  init page api
  = (Returns tt,
     [EvInnerHTML "regions-container" (regions_markup [mara] []);
      EvCreateIcons; EvSetTimeout 150; EvScrollIntoView "region-mara"]).
Proof.
  intros page mara api.
  rewrite (init_success_effects page api [mara] []);
    [ | reflexivity | reflexivity | reflexivity ].
  vm_compute. reflexivity.
Defined.



(** X21. With the [api] object of api.js and both network attempts failing
    (the service is down), the page still gets its content: the one write
    is the bulk markup of the mock regions with the mock attractions, and
    each of the two fallbacks is logged as a warning, once; these are the
    only warnings (in which order the two come is left open: the two
    requests are in flight together). *)
Theorem init_renders_mock_data_when_service_is_down
    {Detail} (page : Page) (network : Network Detail)
    (MOCK_DATA : MockData Detail)
    (errR errA : JSError) (eventsR eventsA : list event) :
  getElementById page None "regions-container" = true →
  attempt_fails "/regions/" (regions_net network) errR eventsR →
  attempt_fails "/attractions/" (attractions_net network) errA eventsA →
  let run := init page (api_object false network MOCK_DATA) in
  result run = Returns tt
  ∧ filter is_write (trace run)
    = [EvInnerHTML "regions-container"
         (regions_markup (regions MOCK_DATA) (attractions MOCK_DATA))]
  ∧ filter is_warning (trace run)
    ≡ₚ [fallback_warning "/regions/" errR;
        fallback_warning "/attractions/" errA].
Proof.
  intros Hc HR HA run. unfold run.
  set (api := api_object false network MOCK_DATA).
  assert (ER : api_getRegions api
               = (Returns (regions MOCK_DATA),
                  eventsR ++ [fallback_warning "/regions/" errR])).
  { unfold api, api_object, api.getRegions. cbn [api_getRegions].
    by rewrite (apiFetch_falls_back _ _ _ _ _ HR). }
  assert (EA : api_getAttractions api
               = (Returns (attractions MOCK_DATA),
                  eventsA ++ [fallback_warning "/attractions/" errA])).
  { unfold api, api_object, api.getAttractions. cbn [api_getAttractions].
    by rewrite (apiFetch_falls_back _ _ _ _ _ HA). }
  rewrite (init_success_trace_exact page api (regions MOCK_DATA)
             (attractions MOCK_DATA) Hc)
    by (by rewrite ?ER, ?EA).
  rewrite ER, EA. unfold result, trace. simpl.
  destruct (attempt_fails_quiet _ _ _ _ HR) as [HqR HwR].
  destruct (attempt_fails_quiet _ _ _ _ HA) as [HqA HwA].
  split_and!; [done | |];
    rewrite !filter_app, ?HqR, ?HwR, ?HqA, ?HwA; simpl;
    rewrite ?filter_cons; simpl;
    destruct (lucide_defined page), (AOS_defined page),
      (highlight page) as [[|c h]|];
    try destruct (getElementById page (Some _) _); reflexivity.
Qed.

Lemma init_renders_mock_data_when_service_is_down_witness :
  let page := mkPage (λ _ _, true) true true None in
  let network : Network nat := mkNetwork nat offline offline offline in
  let mara := Region.make "mara" "Mara" "" None "-1.75" "34.17" 0 in
  let MOCK_DATA : MockData nat := mkMockData nat [mara] [] ∅ in
  let run := init page (api_object false network MOCK_DATA) in
  filter is_write (trace run)
  = [EvInnerHTML "regions-container" (regions_markup [mara] [])]
  ∧ filter is_warning (trace run)
    ≡ₚ [EvConsoleWarn "[api] Falling back to mock data for /regions/:"
          "Failed to fetch";
        EvConsoleWarn "[api] Falling back to mock data for /attractions/:"
          "Failed to fetch"].
Proof.
  intros page network mara MOCK_DATA run.
  destruct (init_renders_mock_data_when_service_is_down page network
              MOCK_DATA
              (mkError "TypeError" "Failed to fetch")
              (mkError "TypeError" "Failed to fetch")
              (attempt_events "/regions/") (attempt_events "/attractions/"))
    as (_ & Hwrite & Hwarn).
  - reflexivity.
  - by apply fails_network.
  - by apply fails_network.
  - split; [exact Hwrite | exact Hwarn].
Defined.

(** X22. The two entry points never throw and never reject: whatever the
    page, the [api] calls and the network do, each of them completes, and
    a failure shows in what is logged and written only. *)
Theorem entry_points_always_complete
    (page : Page) (api : Api)
    (net : string → FetchResult (list Contributor.t)) :
  result (init page api) = Returns tt
  ∧ result (loadContributors page net) = Returns tt.
Proof.
  split.
  - destruct api as [[[regions|e] tR] [[attractions|e'] tA]];
      run_controller;
      destruct (getElementById page None "regions-container");
      try reflexivity;
      destruct (lucide_defined page), (AOS_defined page),
        (highlight page) as [[|c h]|];
      try destruct (getElementById page (Some _) _); reflexivity.
  - run_controller.
    destruct (getElementById page None "contributors-grid");
      [|reflexivity].
    destruct (net _) as [res | e | e]; cbv beta iota;
      [ | by destruct (lucide_defined page)
        | by destruct (lucide_defined page) ].
    destruct (ok res); cbv beta iota;
      [ | by destruct (lucide_defined page) ].
    destruct (json res) as [contributors | e]; cbv beta iota;
      [ | by destruct (lucide_defined page) ].
    destruct contributors as [|c cs]; [reflexivity|].
    change (length (c :: cs) =? 0)%nat with false. cbv beta iota.
    by destruct (AOS_defined page).
Qed.

(** ** The contributors page *)

(** X23. The card of a contributor gives the number of contributions with
    the singular for exactly one and the plural for every other number,
    zero included.  The number is printed as the template literal prints
    it ([Integer.toString]): in decimal digits, and from [10^21] on in
    exponent form. *)
Theorem contribution_count_pluralized (c : Contributor.t) :
  let count := Contributor.contributions c in
  (count = 1 →
   Str.occurs_in
     (html "<span class='text-xs text-tz-muted mt-1'>1 contribution</span>")
     (contributorCard c))
  ∧ (count ≠ 1 →
     Str.occurs_in
       (html "<span class='text-xs text-tz-muted mt-1'>" +:+ Integer.toString count
        +:+ html " contributions</span>")
       (contributorCard c)).
Proof.
  intros count.
  assert (H : Str.occurs_in
                (html "<span class='text-xs text-tz-muted mt-1'>"
                 +:+ Integer.toString count +:+ html " contribution"
                 +:+ (if bool_decide (count ≠ 1) then "s" else "")
                 +:+ html "</span>")
                (contributorCard c))
    by (unfold contributorCard, count; find_at_template_end 8 3).
  split; intros Hc.
  - rewrite Hc in H. exact H.
  - rewrite bool_decide_true in H by done. exact H.
Qed.

Lemma contribution_count_pluralized_witness :
  let by_count n := Contributor.make "asha" "https://a.example/1?v=4"
                      "https://github.com/asha" n in
  Str.occurs_in
    (html "<span class='text-xs text-tz-muted mt-1'>1 contribution</span>")
    (contributorCard (by_count 1))
  ∧ Str.occurs_in
      (html "<span class='text-xs text-tz-muted mt-1'>37 contributions</span>")
      (contributorCard (by_count 37))
  ∧ Str.occurs_in
      (html "<span class='text-xs text-tz-muted mt-1'>0 contributions</span>")
      (contributorCard (by_count 0))
  ∧ Str.occurs_in
      (html "<span class='text-xs text-tz-muted mt-1'>18446744073709552000 contributions</span>")
      (contributorCard (by_count (2 ^ 64))).
Proof.
  intros by_count. split_and!.
  - apply (proj1 (contribution_count_pluralized (by_count 1))). reflexivity.
  - apply (proj2 (contribution_count_pluralized (by_count 37))).
    simpl. lia.
  - apply (proj2 (contribution_count_pluralized (by_count 0))).
    simpl. lia.
  - apply (proj2 (contribution_count_pluralized (by_count (2 ^ 64)))).
    simpl. lia.
Defined.

(** X24. With the grid present, the contributor loader makes exactly one
    request, to the contributors address of the repository with a page
    size of 20, and sets no timer for it; whatever comes back, it writes
    into the grid exactly once.  It logs a warning exactly when the load
    failed, with the message of the error. *)
Theorem loadContributors_one_request_one_write
    (page : Page) (net : string → FetchResult (list Contributor.t)) :
  getElementById page None "contributors-grid" = true →
  let run := trace (loadContributors page net) in
  filter is_fetch run
  = [EvFetch
       "https://api.github.com/repos/cleven12/twenzetu-safari-web/contributors?per_page=20"]
  ∧ filter is_timer run = []
  ∧ (∃ markup, filter is_write run = [EvInnerHTML "contributors-grid" markup])
  ∧ ((∃ res contributors,
        net contributors_url = Responded res ∧ ok res = true
        ∧ json res = Returns contributors)
     ∧ filter is_warning run = []
     ∨ ∃ e, contributors_fetch_fails net e
            ∧ filter is_warning run
              = [EvConsoleWarn "[about] Failed to load contributors:"
                   (message e)]).
Proof.
  intros Hgrid run. unfold run. run_controller. rewrite Hgrid.
  fold contributors_url.
  destruct (net contributors_url) as [res | e | e] eqn:Hnet; cbv beta iota.
  - destruct (ok res) eqn:Hok; cbv beta iota.
    + destruct (json res) as [contributors | e] eqn:Hjson; cbv beta iota.
      * assert (Hload : ∃ res0 contributors0,
                  Responded res = Responded res0 ∧ ok res0 = true
                  ∧ json res0 = Returns contributors0)
          by (by exists res, contributors).
        destruct contributors as [|c cs].
        -- split_and!; [done | done | by eexists |].
           left. split; [exact Hload | done].
        -- change (length (c :: cs) =? 0)%nat with false. cbv beta iota.
           destruct (AOS_defined page);
             (split_and!; [done | done | by eexists |]);
             left; (split; [exact Hload | done]).
      * destruct (lucide_defined page);
          (split_and!; [done | done | by eexists |]);
          right; exists e; (split; [by eapply cf_parse | done]).
    + destruct (lucide_defined page);
        (split_and!; [done | done | by eexists |]);
        right; eexists; (split; [by eapply cf_status | done]).
  - destruct (lucide_defined page);
      (split_and!; [done | done | by eexists |]);
      right; exists e; (split; [by apply cf_network | done]).
  - destruct (lucide_defined page);
      (split_and!; [done | done | by eexists |]);
      right; exists e; (split; [by apply cf_abort | done]).
Qed.

Lemma loadContributors_one_request_one_write_witness :
  let page := mkPage (λ _ _, true) true true None in
  let limited : string → FetchResult (list Contributor.t) :=
    λ _, Responded (mkResponse 403 (Returns [])) in
  filter is_fetch (trace (loadContributors page limited))
  = [EvFetch contributors_url]
  ∧ filter is_timer (trace (loadContributors page limited)) = [].
Proof.
  intros page limited.
  destruct (loadContributors_one_request_one_write page limited eq_refl)
    as (Hfetch & Htimer & _).
  split; [exact Hfetch | exact Htimer].
Defined.

(** ** download-images.sh *)

Lemma string_app_inv_tail (a b t : string) : a +:+ t = b +:+ t → a = b.
Proof.
  intros H.
  assert (Hlen : String.length a = String.length b).
  { apply (f_equal String.length) in H.
    rewrite !StrFacts.app_length in H. lia. }
  revert b H Hlen. induction a as [|x a IH]; intros [|y b] H Hlen;
    simpl in Hlen; try done.
  rewrite !StrFacts.app_cons in H. injection H as -> H.
  f_equal. apply IH; [done | lia].
Qed.

Lemma filter_ext_in {A} (P Q : A → Prop)
    `{!∀ x, Decision (P x)} `{!∀ x, Decision (Q x)} (l : list A) :
  Forall (λ x, P x ↔ Q x) l → filter P l = filter Q l.
Proof.
  induction 1 as [|x l Hx _ IH]; [done|].
  destruct (decide (P x)) as [HP | HP].
  - rewrite !filter_cons_True by tauto. by rewrite IH.
  - rewrite !filter_cons_False by tauto. done.
Qed.

Lemma photo_out_inj (p q : string) : photo_out p = photo_out q → p = q.
Proof.
  unfold photo_out. intros H.
  apply (inj (String.app DEST)), (inj (String.app "/")) in H.
  by apply string_app_inv_tail in H.
Qed.

Lemma download_loop_keeps curl photos files path size :
  files !! path = Some size →
  (download_loop curl photos files).1 !! path = Some size.
Proof.
  revert files. induction photos as [|PHOTO rest IH]; intros files Hp;
    [done|]. simpl.
  destruct (files !! photo_out PHOTO) eqn:Hout.
  - specialize (IH files Hp). by destruct (download_loop curl rest files).
  - assert (Hne : photo_out PHOTO ≠ path) by congruence.
    destruct (curl (photo_url PHOTO)) as [sz|].
    + specialize (IH (<[photo_out PHOTO := sz]> files)).
      rewrite lookup_insert_ne in IH by done. specialize (IH Hp).
      by destruct (download_loop curl rest _).
    + specialize (IH files Hp). by destruct (download_loop curl rest files).
Qed.

Lemma download_loop_requests curl photos files :
  NoDup photos →
  curl_requests (download_loop curl photos files).2
  = map (λ p, (photo_url p, photo_out p))
        (filter (λ p, files !! photo_out p = None) photos).
Proof.
  intros Hnd. revert files.
  induction Hnd as [|PHOTO rest Hnotin _ IH]; intros files; [done|].
  assert (Hsame : ∀ sz,
            filter (λ p, <[photo_out PHOTO := sz]> files !! photo_out p
                         = None) rest
            = filter (λ p, files !! photo_out p = None) rest).
  { intros sz. apply filter_ext_in, Forall_forall.
    intros p Hp. rewrite lookup_insert_ne; [done|].
    intros Heq%photo_out_inj. by subst. }
  simpl. destruct (files !! photo_out PHOTO) eqn:Hout.
  - rewrite filter_cons_False by (by rewrite Hout).
    specialize (IH files). by destruct (download_loop curl rest files).
  - rewrite filter_cons_True by done. simpl.
    destruct (curl (photo_url PHOTO)) as [sz|].
    + specialize (IH (<[photo_out PHOTO := sz]> files)).
      rewrite Hsame in IH. destruct (download_loop curl rest _). simpl in *.
      by rewrite IH.
    + specialize (IH files). destruct (download_loop curl rest files).
      simpl in *. by rewrite IH.
Qed.

Lemma download_loop_all_present curl photos files :
  Forall (λ p, is_Some (files !! photo_out p)) photos →
  download_loop curl photos files
  = (files, map (λ p, ShEcho ("Already exists: " +:+ photo_out p)) photos).
Proof.
  induction 1 as [|PHOTO rest [sz Hsz] _ IH]; [done|].
  simpl. by rewrite Hsz, IH.
Qed.

Lemma download_loop_saves_all curl photos files :
  (∀ p, p ∈ photos → is_Some (curl (photo_url p))) →
  Forall (λ p, is_Some ((download_loop curl photos files).1 !! photo_out p))
         photos.
Proof.
  revert files. induction photos as [|PHOTO rest IH]; intros files Hcurl;
    [done|].
  assert (Hrest : ∀ p, p ∈ rest → is_Some (curl (photo_url p)))
    by (intros p Hp; apply Hcurl; by right).
  simpl. destruct (files !! photo_out PHOTO) as [sz|] eqn:Hout.
  - pose proof (download_loop_keeps curl rest files _ _ Hout) as Hkeep.
    specialize (IH files Hrest).
    destruct (download_loop curl rest files). simpl in *.
    constructor; [by eexists | done].
  - destruct (Hcurl PHOTO) as [sz Hsz]; [by left|]. rewrite Hsz.
    pose proof (download_loop_keeps curl rest
                  (<[photo_out PHOTO := sz]> files) (photo_out PHOTO) sz
                  (lookup_insert_eq _ _ _)) as Hkeep.
    specialize (IH (<[photo_out PHOTO := sz]> files) Hrest).
    destruct (download_loop curl rest _). simpl in *.
    constructor; [by eexists | done].
Qed.

Lemma curl_requests_app (l1 l2 : list sh_event) :
  curl_requests (l1 ++ l2) = curl_requests l1 ++ curl_requests l2.
Proof.
  induction l1 as [|ev l1 IH]; [done|]. destruct ev; simpl; by rewrite ?IH.
Qed.

Lemma PHOTOS_NoDup : NoDup PHOTOS.
Proof. apply (bool_decide_unpack (NoDup PHOTOS)). vm_compute. exact I. Qed.

Lemma download_images_requests curl files :
  curl_requests (download_images curl files).2
  = map (λ p, (photo_url p, photo_out p))
        (filter (λ p, files !! photo_out p = None) PHOTOS).
Proof.
  unfold download_images, download_images_of.
  pose proof (download_loop_requests curl PHOTOS files PHOTOS_NoDup) as H.
  destruct (download_loop curl PHOTOS files) as [files' log].
  cbn [snd] in *. rewrite !curl_requests_app. cbn [curl_requests].
  by rewrite app_nil_r, H.
Qed.

(** X25. The script asks for exactly the photographs whose file is missing
    when it starts, in the order of its list, each from the image service
    with the fixed size and quality parameters and into its own file under
    [src/images]. *)
Theorem download_images_fetches_the_missing
    (curl : string → option string) (files : gmap string string) :
  curl_requests (download_images curl files).2
  = map (λ p, ("https://images.unsplash.com/" +:+ p
               +:+ "?w=1200&q=75&fm=jpg&fit=crop",
               "src/images/" +:+ p +:+ ".jpg"))
        (filter (λ p, files !! ("src/images/" +:+ p +:+ ".jpg") = None)
                PHOTOS).
Proof. apply download_images_requests. Qed.

(** X26. The script leaves every file that exists when it starts as it is
    and asks for no download into it. *)
Theorem download_images_keeps_existing_files
    (curl : string → option string) (files : gmap string string)
    (path size : string) :
  files !! path = Some size →
  (download_images curl files).1 !! path = Some size
  ∧ ∀ url, (url, path) ∉ curl_requests (download_images curl files).2.
Proof.
  intros Hp. split.
  - unfold download_images, download_images_of.
    pose proof (download_loop_keeps curl PHOTOS files path size Hp) as H.
    by destruct (download_loop curl PHOTOS files).
  - intros url. rewrite download_images_requests.
    intros (p & [= _ ->] & Hin)%list_elem_of_fmap.
    apply list_elem_of_filter in Hin as [Hnone _]. congruence.
Qed.

Lemma download_images_keeps_existing_files_witness :
  let kept := "src/images/photo-1547036967-23d11aacaee0.jpg" in
  let files : gmap string string := {[ kept := "212K" ]} in
  let curl : string → option string := λ _, Some "96K" in
  (download_images curl files).1 !! kept = Some "212K"
  ∧ ∀ url, (url, kept) ∉ curl_requests (download_images curl files).2.
Proof.
  intros kept files curl.
  apply (download_images_keeps_existing_files curl files kept "212K").
  reflexivity.
Defined.

(** X27. When every download delivers a file, all photographs of the list
    are on disk after the run, among them the placeholder image that the
    card and section builders refer to; a second run then asks for no
    download, changes no file, and prints one line per photograph saying
    that it exists already. *)
Theorem download_images_second_run_is_idle
    (curl curl' : string → option string) (files : gmap string string) :
  (∀ url, is_Some (curl url)) →
  let after := (download_images curl files).1 in
  Forall (λ p, is_Some (after !! photo_out p)) PHOTOS
  ∧ is_Some (after !! ("src/" +:+ "images/photo-1547036967-23d11aacaee0.jpg"))
  ∧ download_images curl' after
    = (after,
       [ShMkdir "src/images"]
       ++ map (λ p, ShEcho ("Already exists: " +:+ photo_out p)) PHOTOS
       ++ [ShEcho ""; ShEcho "Done! All images saved to src/images/"]).
Proof.
  intros Hcurl after.
  assert (Hall : Forall (λ p, is_Some (after !! photo_out p)) PHOTOS).
  { unfold after, download_images, download_images_of.
    pose proof (download_loop_saves_all curl PHOTOS files
                  (λ p _, Hcurl (photo_url p))) as H.
    by destruct (download_loop curl PHOTOS files). }
  split_and!.
  - exact Hall.
  - rewrite Forall_forall in Hall.
    apply (Hall "photo-1547036967-23d11aacaee0").
    apply list_elem_of_In. vm_compute. tauto.
  - unfold download_images, download_images_of.
    by rewrite (download_loop_all_present curl' PHOTOS after Hall).
Qed.

Lemma download_images_second_run_is_idle_witness :
  let curl : string → option string := λ _, Some "96K" in
  let after := (download_images curl ∅).1 in
  curl_requests (download_images (λ _, None) after).2 = []
  ∧ (download_images (λ _, None) after).1 = after.
Proof.
  intros curl after.
  destruct (download_images_second_run_is_idle curl (λ _, None) ∅)
    as (_ & _ & Hidle); [by eexists|].
  fold after in Hidle. rewrite Hidle. split; reflexivity.
Defined.

Lemma download_loop_nothing_delivered curl photos files :
  (∀ url, curl url = None) → (download_loop curl photos files).1 = files.
Proof.
  intros Hnone. induction photos as [|PHOTO rest IH]; [done|]. simpl.
  destruct (files !! photo_out PHOTO); rewrite ?Hnone;
    by destruct (download_loop curl rest files).
Qed.

(** X28. The script ends with the line that all images were saved whatever
    happened to the downloads; when no download delivers anything, the
    files on disk are as before the run, and each missing photograph is
    reported as saved, with an empty size. *)
Theorem download_images_reports_done_regardless
    (curl : string → option string) (files : gmap string string) :
  last (download_images curl files).2
  = Some (ShEcho "Done! All images saved to src/images/")
  ∧ ((∀ url, curl url = None) →
     (download_images curl files).1 = files
     ∧ ∀ p, p ∈ PHOTOS → files !! photo_out p = None →
            ShEcho ("  Saved: " +:+ photo_out p +:+ " ()")
            ∈ (download_images curl files).2).
Proof.
  split.
  - unfold download_images, download_images_of.
    destruct (download_loop curl PHOTOS files) as [files' log]. cbn [snd].
    by rewrite app_assoc, last_app.
  - intros Hnone. unfold download_images, download_images_of.
    pose proof (download_loop_nothing_delivered curl PHOTOS files Hnone) as Hf.
    assert (Hlog : ∀ p, p ∈ PHOTOS → files !! photo_out p = None →
              ShEcho ("  Saved: " +:+ photo_out p +:+ " ()")
              ∈ (download_loop curl PHOTOS files).2).
    { generalize PHOTOS. intros photos.
      induction photos as [|PHOTO rest IH]; intros p Hp Hmiss;
        [by apply elem_of_nil in Hp|].
      simpl. destruct (files !! photo_out PHOTO) eqn:Hout.
      - apply elem_of_cons in Hp as [-> | Hp]; [congruence|].
        specialize (IH p Hp Hmiss).
        destruct (download_loop curl rest files). by right.
      - rewrite Hnone. apply elem_of_cons in Hp as [-> | Hp].
        + destruct (download_loop curl rest files). simpl.
          rewrite Hout. simpl. right. right. by left.
        + specialize (IH p Hp Hmiss).
          destruct (download_loop curl rest files). simpl.
          right. right. by right. }
    destruct (download_loop curl PHOTOS files) as [files' log].
    cbn [fst snd] in *. split; [done|].
    intros p Hp Hmiss. apply elem_of_app. right. apply elem_of_app. left.
    by apply Hlog.
Qed.

Lemma download_images_reports_done_regardless_witness :
  let curl : string → option string := λ _, None in
  (download_images curl ∅).1 = ∅
  ∧ ShEcho "  Saved: src/images/photo-1547036967-23d11aacaee0.jpg ()"
    ∈ (download_images curl ∅).2
  ∧ last (download_images curl ∅).2
    = Some (ShEcho "Done! All images saved to src/images/").
Proof.
  intros curl.
  destruct (download_images_reports_done_regardless curl ∅) as [Hlast Hnone].
  destruct (Hnone (λ _, eq_refl)) as [Hfiles Hsaved].
  split_and!; [exact Hfiles | | exact Hlast].
  apply (Hsaved "photo-1547036967-23d11aacaee0"); [|reflexivity].
  apply list_elem_of_In. vm_compute. tauto.
Defined.
